(** * EOReader: raster reading, writing and stacking helpers

    A shallow embedding of
      - [eoreader/utils.py] ([read], [write], [stack_dict], and further on
        [get_split_name], [use_dask], [get_data_dir], [quick_xml_to_dict]),
      - [eoreader/products/optical/l3_product.py] ([L3Product]),
      - [CI/SCRIPTS_SNAP/test_all_sat_end_to_end_on_disk.py] ([set_dem],
        the resolution and band choices of [_test_core]),
    followed by the properties of the specification that concern them.

    Conventions.  A float is the rational it stands for ([Q]) and NaN is
    [None]; the result of a float product or quotient is rounded to the
    nearest double ([fl64]), and a decimal literal is the double nearest to
    it.  Python exceptions are values of [Exception] and a
    fallible call returns a sum, the exception on the left.  Dictionaries
    ([os.environ], [xds.attrs], band maps) are [gmap]s.  Everything that the
    sources import from elsewhere (the raster engine, the band catalogue, the
    Landsat base class, the file system) is an operation of a type class. *)

From Stdlib Require Import ZArith QArith Qround Qpower String Ascii List Lia Lqa.
From stdpp Require Import base option list strings gmap fin_maps.

Local Open Scope string_scope.
Local Open Scope list_scope.

Set Warnings "-register-all".

(** ** Python values shared by the three files *)

Module Py.

(** The exception classes the sources raise or catch.  [BaseError] is the
    plain [Exception(...)] of Python; [RaisedFrom e ex] is [raise e from ex],
    which keeps [ex] as the cause of [e]. *)
Inductive Exception : Type :=
| RasterioIOError (msg : string)
| InvalidProductError (msg : string)
| FileNotFoundError (msg : string)
| NotADirectoryError (msg : string)
| AttributeError (msg : string)
| BaseError (msg : string)
| OtherError (cls msg : string)
| RaisedFrom (e cause : Exception).

Definition Result (A : Type) : Type := Exception + A.

(** [path: Union[str, CloudPath, Path]]: a plain string or a path object. *)
Inductive PathLike : Type :=
| PyStr (s : string)
| PathObj (s : string).

Definition isinstance_str (p : PathLike) : bool :=
  match p with PyStr _ => true | PathObj _ => false end.

Definition str (p : PathLike) : string :=
  match p with PyStr s | PathObj s => s end.

(** [s.endswith(suffix)] *)
Definition endswith (s suffix : string) : bool :=
  let n := String.length s in
  let m := String.length suffix in
  (m <=? n)%nat && String.eqb (substring (n - m) m s) suffix.

(** [sub in s] *)
Fixpoint contains (sub s : string) : bool :=
  String.prefix sub s ||
  match s with
  | EmptyString => false
  | String _ s' => contains sub s'
  end.

(** [s.split(sep)] for a separator of one character: empty pieces are
    kept, as Python keeps them. *)
Fixpoint split (sep : ascii) (s : string) : list string :=
  match s with
  | EmptyString => [EmptyString]
  | String c s' =>
      if Ascii.eqb c sep then EmptyString :: split sep s'
      else match split sep s' with
           | h :: t => String c h :: t
           | [] => [String c EmptyString]
           end
  end.

(** [sep.join(parts)] *)
Definition join (sep : string) (parts : list string) : string :=
  String.concat sep parts.

(** Attribute values of an array: what [xds.attrs] can hold here. *)
Inductive Value : Type :=
| VNone
| VStr (s : string)
| VList (l : list string)
| VNum (q : Q).

(** Python truthiness, as used by [if previous_long_name and ...]. *)
Definition truthy (v : Value) : bool :=
  match v with
  | VNone => false
  | VStr s => negb (String.eqb s "")
  | VList l => match l with [] => false | _ => true end
  | VNum q => negb (Qeq_bool q 0)
  end.

(** [dict.get(key)] and [dict.get(key, default)] *)
Definition get (d : gmap string Value) (key : string) : Value :=
  default VNone (d !! key).

Definition get_default (d : gmap string Value) (key : string) (dflt : Value) : Value :=
  default dflt (d !! key).

End Py.
Import Py.

(** ** Numbers: floats as the rationals they stand for, NaN as [None] *)

Module Num.

Definition Float : Type := option Q.

(** [np.round] on a rational: the nearest integer, a tie going to the even
    neighbour. *)
Definition round_half_even (x : Q) : Z :=
  let f := Qfloor x in
  match ((x - inject_Z f) ?= (1 # 2))%Q with
  | Lt => f
  | Gt => (f + 1)%Z
  | Eq => if Z.even f then f else (f + 1)%Z
  end.

(** Rounding to binary64, to the nearest with ties to even.  [ilog2 x] is
    the exponent of the positive [x], the [e] with [2^e <= x < 2^(e+1)]; a
    double has 53 significant bits, so the doubles near [x] are the
    multiples of [2^(e-52)].  The exponent is not bounded: overflow and
    subnormal numbers are left out. *)
Definition pow2 (k : Z) : Q := Qpower 2 k.

Definition ilog2 (x : Q) : Z :=
  let e0 := (Z.log2 (Qnum x) - Z.log2 (Zpos (Qden x)))%Z in
  if Qle_bool (pow2 e0) x then e0 else (e0 - 1)%Z.

Definition fl64_pos (x : Q) : Q :=
  let k := (ilog2 x - 52)%Z in
  (inject_Z (round_half_even (x / pow2 k)) * pow2 k)%Q.

Definition fl64 (x : Q) : Q :=
  match Qnum x with
  | Z0 => 0%Q
  | Zpos _ => Qred (fl64_pos x)
  | Zneg _ => Qred (- fl64_pos (- x))
  end.

(** A decimal literal of the source, such as [-0.1], is the double nearest
    to it. *)
Definition literal (x : Q) : Q := fl64 x.

Definition Qltb (a b : Q) : bool :=
  match (a ?= b)%Q with Lt => true | _ => false end.

(** [a < b] and [a > b] on floats: a comparison with NaN is [False]. *)
Definition flt (a b : Float) : bool :=
  match a, b with
  | Some x, Some y => Qltb x y
  | _, _ => false
  end.

Definition fgt (a b : Float) : bool := flt b a.

(** [a * b] and [a / b] on floats: the exact result rounded to a double.
    The divisors met here are the constants 1000 and 10000. *)
Definition fmul (a b : Float) : Float :=
  match a, b with
  | Some x, Some y => Some (fl64 (x * y))
  | _, _ => None
  end.

Definition fdiv (a b : Float) : Float :=
  match a, b with
  | Some x, Some y => Some (fl64 (x / y))
  | _, _ => None
  end.

Definition np_round (a : Float) : Float :=
  match a with
  | Some x => Some (inject_Z (round_half_even x))
  | None => None
  end.

(** [np.arange(start, stop, dtype=int)] *)
Definition np_arange (start stop : Z) : list Z :=
  map (fun i => (start + Z.of_nat i)%Z) (seq 0 (Z.to_nat (stop - start))).

End Num.
Import Num.

(** ** Band names ([eoreader.bands]) *)

Module Bands.

(** The logical band identifiers the three files name, and [NDVI] standing
    for the index products of [eoreader.bands]. *)
Inductive BandName : Type :=
| GREEN | RED | VRE_1 | VRE_2 | VRE_3 | NIR | NNIR | SWIR_2
| HILLSHADE | CLOUDS | SLOPE
| VV | VV_DSPK | HH | HH_DSPK
| NDVI.

#[export] Instance BandName_eq_dec : EqDecision BandName.
Proof. solve_decision. Defined.

Definition band_code (b : BandName) : nat :=
  match b with
  | GREEN => 0 | RED => 1 | VRE_1 => 2 | VRE_2 => 3 | VRE_3 => 4
  | NIR => 5 | NNIR => 6 | SWIR_2 => 7
  | HILLSHADE => 8 | CLOUDS => 9 | SLOPE => 10
  | VV => 11 | VV_DSPK => 12 | HH => 13 | HH_DSPK => 14
  | NDVI => 15
  end.

Definition band_of_code (n : nat) : BandName :=
  match n with
  | 0 => GREEN | 1 => RED | 2 => VRE_1 | 3 => VRE_2 | 4 => VRE_3
  | 5 => NIR | 6 => NNIR | 7 => SWIR_2
  | 8 => HILLSHADE | 9 => CLOUDS | 10 => SLOPE
  | 11 => VV | 12 => VV_DSPK | 13 => HH | 14 => HH_DSPK
  | _ => NDVI
  end.

#[export] Instance BandName_countable : Countable BandName :=
  inj_countable' band_code band_of_code ltac:(by intros []).

(** The two predicates [stack_dict] imports from [eoreader.bands]. *)
Class BandCatalog : Type := {
  is_sat_band : BandName -> bool;
  is_index : BandName -> bool;
}.

(** Modelled from the spec: [is_sat_band] and [is_index] of
    [eoreader.bands], which is not among the sources.  The spec partitions
    the identifiers into optical reflective bands and SAR polarisation bands
    (the physical satellite bands), terrain-derived and cloud layers, and
    index products. *)
Definition spec_is_sat_band (b : BandName) : bool :=
  match b with
  | GREEN | RED | VRE_1 | VRE_2 | VRE_3 | NIR | NNIR | SWIR_2
  | VV | VV_DSPK | HH | HH_DSPK => true
  | _ => false
  end.

Definition spec_is_index (b : BandName) : bool :=
  match b with NDVI => true | _ => false end.

Definition spec_catalog : BandCatalog :=
  {| is_sat_band := spec_is_sat_band; is_index := spec_is_index |}.

End Bands.
Import Bands.

(** ** [eoreader/utils.py] *)

Module Utils.

(** A pixel: a value, or NaN where the source had none. *)
Definition Pixel : Type := Float.

(** One band on its grid: rows along [y], columns along [x]. *)
Definition Grid : Type := list (list Pixel).

(** An [xr.DataArray] as [read] and [write] see it: the coordinates of its
    band axis, one grid per band, and its attributes. *)
Record DataArray : Type := {
  coords_band : list Z;
  values : list Grid;
  attrs : gmap string Value;
}.

Definition assign_coords_band (arr : DataArray) (band : list Z) : DataArray :=
  {| coords_band := band; values := values arr; attrs := attrs arr |}.

Definition set_attr (xds : DataArray) (key : string) (v : Value) : DataArray :=
  {| coords_band := coords_band xds; values := values xds;
     attrs := <[key := v]> (attrs xds) |}.

(** [xds.rio.count] *)
Definition rio_count (xds : DataArray) : nat := length (values xds).

(** An [xr.Dataset]: its data variables in their order, each a grid. *)
Definition Dataset : Type := list (BandName * Grid).

(** The stacked array: its dimension names in order, the labels of its band
    axis, one grid per label, and the nodata its encoding declares. *)
Record Stack : Type := {
  dims : list string;
  stack_bands : list BandName;
  stack_values : list Grid;
  encoded_nodata : option Q;
}.

Inductive DType : Type := float32 | uint16.

Inductive LogMessage : Type :=
| Stacking
| CannotConvert (stack_min : Float) (round_min : Q)
| SmallNegative
| BandNotInReflectance.

Inductive LogRecord : Type :=
| DEBUG (msg : LogMessage)
| WARNING (msg : LogMessage).

(** What [utils.py] takes from [sertit.rasters], [xarray] and the file
    system.  [ReadOptions] stands for the keyword arguments [read] passes
    on; [rasters_write] answers [None] when it returns normally. *)
Class RasterEngine : Type := {
  ReadOptions : Type;
  rasters_read : PathLike -> ReadOptions -> Result DataArray;
  rasters_write : DataArray -> PathLike -> option Exception;
  path_exists : PathLike -> bool;
  quantile : list Pixel -> Q -> Float;
  stacked_encoding : Dataset -> option Q;
  UINT16_NODATA : Q;
}.

Section Functions.
Context `{RasterEngine} `{BandCatalog}.

(** The test of lines 201-203, made when [rasters.read] has raised a
    [RasterioIOError]: what [read] reports as a corrupted file. *)
Definition known_corruption (path : PathLike) : bool :=
  negb (isinstance_str path)
  && (endswith (str path) "jp2"
      || endswith (str path) "tif" && path_exists path).

(** [read]: lines 172-206. *)
Definition read (path : PathLike) (opts : ReadOptions) : Result DataArray :=
  match rasters_read path opts with
  | inr arr =>
      let nof_bands := length (coords_band arr) in
      inr (assign_coords_band arr (np_arange 1 (Z.of_nat nof_bands + 1)))
  | inl (RasterioIOError _ as ex) =>
      if known_corruption path
      then inl (RaisedFrom (InvalidProductError ("Corrupted file: " +:+ str path)) ex)
      else inl ex
  | inl ex => inl ex
  end.

(** [v.split(" ")]: only a [str] has the method. *)
Definition value_split (v : Value) : Result (list string) :=
  match v with
  | VStr s => inr (split " " s)
  | _ => inl (AttributeError "object has no attribute 'split'")
  end.

(** Lines 240-247 of [write]: the array as it is handed to [rasters.write]. *)
Definition write_long_name_as_list (xds : DataArray) : Result DataArray :=
  let previous_long_name := get (attrs xds) "long_name" in
  if truthy previous_long_name && (1 <? rio_count xds)%nat then
    match value_split
            (get_default (attrs xds) "long_name"
               (get_default (attrs xds) "name" (VStr ""))) with
    | inr l => inr (set_attr xds "long_name" (VList l))
    | inl (AttributeError _) => inr xds
    | inl ex => inl ex
    end
  else inr xds.

(** [write]: the exception raised, if any, and the array as the call leaves
    it ([xds] is mutated in place). *)
Definition write (xds : DataArray) (path : PathLike) : option Exception * DataArray :=
  let previous_long_name := get (attrs xds) "long_name" in
  match write_long_name_as_list xds with
  | inl ex => (Some ex, xds)
  | inr xds1 =>
      match rasters_write xds1 path with
      | Some ex => (Some ex, xds1)
      | None =>
          if truthy previous_long_name && (1 <? rio_count xds1)%nat
          then (None, set_attr xds1 "long_name" previous_long_name)
          else (None, xds1)
      end
  end.

(** *** The array operations [stack_dict] uses *)

(** [band_xds.to_array()]: every value of every variable. *)
Definition to_array (band_xds : Dataset) : list Pixel :=
  concat (map (fun item : BandName * Grid => concat item.2) band_xds).

Definition grid_map (f : Pixel -> Pixel) (g : Grid) : Grid := map (map f) g.

Definition dataset_map (f : Pixel -> Pixel) (band_xds : Dataset) : Dataset :=
  map (fun item : BandName * Grid => (item.1, grid_map f item.2)) band_xds.

(** [clip(min=lo, max=None)] on one value: NaN stays NaN. *)
Definition clip_min (lo : Q) (p : Pixel) : Pixel :=
  match p with
  | Some v => Some (if Qltb v lo then lo else v)
  | None => None
  end.

(** [fillna(nodata)] on one value. *)
Definition fillna (nodata : Q) (p : Pixel) : Pixel :=
  match p with
  | Some v => Some v
  | None => Some nodata
  end.

(** [band_xda * scale] *)
Definition grid_mul (band_xda : Grid) (scale : Q) : Grid :=
  grid_map (fun p => fmul p (Some scale)) band_xda.

(** [np.nanmax]: the largest value that is not NaN, NaN when there is none. *)
Definition nanmax_step (acc : Float) (p : Pixel) : Float :=
  match acc, p with
  | Some m, Some v => Some (if Qltb m v then v else m)
  | None, Some v => Some v
  | _, None => acc
  end.

Definition np_nanmax (band_xda : Grid) : Float :=
  fold_left nanmax_step (concat band_xda) None.

(** [to_stacked_array(new_dim, sample_dims)]: one entry per variable, in
    the order of the dataset; the sample dimensions come first. *)
Definition to_stacked_array (new_dim : string) (sample_dims : list string)
    (band_xds : Dataset) : Stack :=
  {| dims := sample_dims ++ [new_dim];
     stack_bands := map fst band_xds;
     stack_values := map snd band_xds;
     encoded_nodata := stacked_encoding band_xds |}.

(** [transpose]: the data keep their labels, the dimensions are
    put in the order asked for. *)
Definition transpose (order : list string) (stack : Stack) : Stack :=
  {| dims := order;
     stack_bands := stack_bands stack;
     stack_values := stack_values stack;
     encoded_nodata := encoded_nodata stack |}.

(** [stack.rio.write_nodata(nodata, encoded=True, inplace=True)] *)
Definition write_nodata (nodata : Q) (stack : Stack) : Stack :=
  {| dims := dims stack;
     stack_bands := stack_bands stack;
     stack_values := stack_values stack;
     encoded_nodata := Some nodata |}.

(** [stack.rio.encoded_nodata != nodata] *)
Definition nodata_differs (encoded : option Q) (nodata : Q) : bool :=
  match encoded with
  | Some e => negb (Qeq_bool e nodata)
  | None => true
  end.

(** *** [stack_dict]: lines 366-430 *)

(** The body of the loop of lines 404-415.  The product is bound to the
    loop variable [band_xda] and to nothing else: the dataset the loop
    leaves is the dataset it was given. *)
Definition scale_band (scale : Q) (band_xds : Dataset)
    (item : BandName * Grid) : Dataset * list LogRecord :=
  let '(band, band_xda) := item in
  if is_sat_band band || is_index band then
    if fgt (np_nanmax band_xda) (fdiv (Some UINT16_NODATA) (Some scale)) then
      (band_xds, [DEBUG BandNotInReflectance])
    else
      let band_xda := grid_mul band_xda scale in
      (band_xds, [])
  else (band_xds, []).

(** [for band, band_xda in band_xds.items(): ...] *)
Fixpoint for_items (body : Dataset -> BandName * Grid -> Dataset * list LogRecord)
    (band_xds : Dataset) (items : list (BandName * Grid)) : Dataset * list LogRecord :=
  match items with
  | [] => (band_xds, [])
  | item :: rest =>
      let '(band_xds1, log1) := body band_xds item in
      let '(band_xds2, log2) := for_items body band_xds1 rest in
      (band_xds2, log1 ++ log2)
  end.

(** Lines 385-418: the dataset to stack, the dtype and what was logged. *)
Definition encode (band_xds : Dataset) (save_as_int : bool) (nodata : Q)
    : Dataset * DType * list LogRecord :=
  if save_as_int then
    let scale := 10000%Q in
    let round_nb := 1000%Q in
    let round_min := literal (- (1 # 10)) in
    let stack_min := quantile (to_array band_xds) (1 # 1000)%Q in
    if flt (fdiv (np_round (fmul stack_min (Some round_nb))) (Some round_nb))
           (Some round_min)
    then (band_xds, float32, [WARNING (CannotConvert stack_min round_min)])
    else
      let '(band_xds, log_clip) :=
        if flt stack_min (Some 0%Q)
        then (dataset_map (clip_min 0) band_xds, [WARNING SmallNegative])
        else (band_xds, []) in
      let '(band_xds, log_scale) :=
        for_items (scale_band scale) band_xds band_xds in
      (dataset_map (fillna nodata) band_xds, uint16, log_clip ++ log_scale)
  else (band_xds, float32, []).

Definition stack_dict (bands : list BandName) (band_xds : Dataset)
    (save_as_int : bool) (nodata : Q) : Stack * DType * list LogRecord :=
  let '(band_xds, dtype, log) := encode band_xds save_as_int nodata in
  let stack :=
    transpose ["bands"; "y"; "x"]
      (to_stacked_array "bands" ["x"; "y"] band_xds) in
  let stack :=
    match dtype with
    | float32 =>
        if nodata_differs (encoded_nodata stack) nodata
        then write_nodata nodata stack
        else stack
    | uint16 => stack
    end in
  (stack, dtype, DEBUG Stacking :: log).

End Functions.

End Utils.
Import Utils.

(** ** [eoreader/products/optical/l3_product.py] *)

Module L3.

(** Modelled from the spec: [LandsatProductType] of [landsat_product.py],
    which is not among the sources; the spec names the per-sensor variants
    MSS, TM and OLI. *)
Inductive LandsatProductType : Type := L1_OLCI | L1_ETM | L1_TM | L1_MSS.

(** The attributes of [self] that the two members touch. *)
Record L3Product : Type := {
  name : string;
  product_type : option LandsatProductType;
  band_names : gmap BandName string;
}.

(** What [L3Product] inherits from [LandsatProduct] and its enum: the
    acquisition date as [datetime()] prints it, the tile name, and the
    [value] of a product type. *)
Class LandsatProduct : Type := {
  datetime : L3Product -> string;
  tile_name : L3Product -> string;
  product_type_value : LandsatProductType -> string;
}.

(** Modelled from the spec: [map_bands] of [eoreader.bands], which is not
    among the sources.  It registers or overwrites the entries of the
    table, a later entry winning over an earlier one. *)
Definition map_bands (table : list (BandName * string))
    (m : gmap BandName string) : gmap BandName string :=
  fold_left (fun acc entry => <[entry.1 := entry.2]> acc) table m.

Definition L3_MSS_BANDS : list (BandName * string) :=
  [(GREEN, "4"); (RED, "5"); (VRE_1, "6"); (VRE_2, "6"); (VRE_3, "6");
   (NIR, "7"); (NNIR, "7")].

(** [get_product_type]: the exception raised, if any, and [self] as the
    call leaves it. *)
Definition get_product_type (self : L3Product) : option Exception * L3Product :=
  if contains "L1" (name self) then
    (None,
     {| name := name self;
        product_type := Some L1_MSS;
        band_names := map_bands L3_MSS_BANDS (band_names self) |})
  else
    (Some (InvalidProductError ("Invalid Landsat-3 name: " +:+ name self)), self).

(** [condensed_name]: [product_type] is [None] until [get_product_type]
    has set it, and [None] has no [value]. *)
Definition condensed_name `{LandsatProduct} (self : L3Product) : Result string :=
  match product_type self with
  | Some pt =>
      inr (datetime self +:+ "_L3_" +:+ tile_name self +:+ "_" +:+ product_type_value pt)
  | None => inl (AttributeError "'NoneType' object has no attribute 'value'")
  end.

End L3.
Import L3.

(** ** [CI/SCRIPTS_SNAP/test_all_sat_end_to_end_on_disk.py] *)

Module CI.

(** [os.environ] *)
Abbreviation Environ := (gmap string string).

(** A computation that reads and writes [os.environ] and may raise. *)
Definition M (A : Type) : Type := Environ -> Result A * Environ.

Definition ret {A} (a : A) : M A := fun env => (inr a, env).

Definition bind {A B} (c : M A) (k : A -> M B) : M B :=
  fun env =>
    match c env with
    | (inr a, env1) => k a env1
    | (inl ex, env1) => (inl ex, env1)
    end.

Definition raise {A} (ex : Exception) : M A := fun env => (inl ex, env).

Definition lift {A} (r : Result A) : M A := fun env => (r, env).

(** [os.environ.get(key)] *)
Definition environ_get (key : string) : M (option string) :=
  fun env => (inr (env !! key), env).

(** [key in os.environ] *)
Definition environ_has (key : string) : M bool :=
  fun env => (inr (bool_decide (is_Some (env !! key))), env).

(** [os.environ[key] = v] *)
Definition environ_set (key v : string) : M unit :=
  fun env => (inr tt, <[key := v]> env).

(** [try: c except NotADirectoryError: pass] *)
Definition except_NotADirectoryError (c : M unit) : M unit :=
  fun env =>
    match c env with
    | (inl (NotADirectoryError _), env1) => (inr tt, env1)
    | r => r
    end.

#[export] Instance M_ret : MRet M := @ret.
#[export] Instance M_bind : MBind M := fun A B k c => bind c k.

Definition MERIT_DEM_SUB_DIR_PATH : list string :=
  ["GLOBAL"; "MERIT_Hydrologically_Adjusted_Elevations"; "MERIT_DEM.vrt"].

Inductive SensorType : Type := OPTICAL | SAR.

(** The attributes of [prod] read by lines 154-159. *)
Record Product : Type := {
  sensor_type : SensorType;
  resolution : Q;
}.

(** What the script imports: the names of the environment variables
    ([eoreader.env_vars]), the reference store ([get_db_dir]), and the path
    and float operations of the libraries. *)
Class Harness : Type := {
  DEM_PATH : string;
  TEST_USING_S3_DB : string;
  S3_DB_URL_ROOT : string;
  SAR_DEF_RES : string;
  get_db_dir : Result PathLike;
  AnyPath : string -> PathLike;
  joinpath : PathLike -> list string -> PathLike;
  is_file : PathLike -> bool;
  str_of_float : Q -> string;
}.

Section Script.
Context `{Harness}.

(** [if dem_path:] on an argument that is [None] or a string. *)
Definition dem_path_given (dem_path : option string) : bool :=
  match dem_path with
  | Some s => negb (String.eqb s "")
  | None => false
  end.

(** [os.environ.get(TEST_USING_S3_DB) not in ("Y", "YES", "TRUE", "T", "1")] *)
Definition not_using_s3_db (flag : option string) : bool :=
  match flag with
  | Some v => negb (bool_decide (v ∈ ["Y"; "YES"; "TRUE"; "T"; "1"]))
  | None => true
  end.

(** [set_dem]: lines 39-66. *)
Definition set_dem (dem_path : option string) : M unit :=
  if dem_path_given dem_path then
    let dem_path := AnyPath (default "" dem_path) in
    if negb (is_file dem_path) then
      raise (FileNotFoundError ("Not existing DEM: " +:+ str dem_path))
    else
      environ_set DEM_PATH (str dem_path)
  else
    flag ← environ_get TEST_USING_S3_DB;
    if not_using_s3_db flag then
      except_NotADirectoryError
        (db_dir ← lift get_db_dir;
         let merit_dem := joinpath db_dir MERIT_DEM_SUB_DIR_PATH in
         environ_set DEM_PATH (str merit_dem))
    else
      has_root ← environ_has S3_DB_URL_ROOT;
      if negb has_root then
        raise (BaseError
                 ("You must specify the S3 db root using env variable "
                  +:+ S3_DB_URL_ROOT +:+ " if you activate S3_DB"))
      else
        root ← environ_get S3_DB_URL_ROOT;
        let merit_dem := join "/" (default "" root :: MERIT_DEM_SUB_DIR_PATH) in
        environ_set DEM_PATH merit_dem.

(** Lines 154-159 of [_test_core]: the resolution the stack is asked at. *)
Definition target_resolution (prod : Product) : M Q :=
  match sensor_type prod with
  | SAR =>
      let res := 1000%Q in
      environ_set SAR_DEF_RES (str_of_float res);;
      ret res
  | _ =>
      let res := (resolution prod * 50)%Q in
      ret res
  end.

End Script.

End CI.
Import CI.

(** ** Reference instances

    Concrete collaborators on which the statements below are evaluated. *)

Module Reference.

Fixpoint insert_sorted (x : Q) (l : list Q) : list Q :=
  match l with
  | [] => [x]
  | y :: l' => if Qle_bool x y then x :: l else y :: insert_sorted x l'
  end.

Definition sort_values (l : list Q) : list Q := fold_right insert_sorted [] l.

(** The quantile of [xarray] in its default setting: NaN skipped, linear
    interpolation between the two nearest ranks, NaN on no value at all. *)
Definition linear_quantile (vals : list Pixel) (q : Q) : Float :=
  let s := sort_values (omap id vals) in
  let h := (q * inject_Z (Z.of_nat (length s) - 1))%Q in
  let lo := Z.to_nat (Qfloor h) in
  match s !! lo, s !! S lo with
  | Some a, Some b => Some (Qred (a + (h - inject_Z (Qfloor h)) * (b - a)))
  | Some a, None => Some a
  | _, _ => None
  end.

(** An engine around a given reader, writer and file system;
    [rasters.UINT16_NODATA] is 65535. *)
Definition engine (rd : PathLike -> Result DataArray)
    (wr : DataArray -> option Exception) (ex : PathLike -> bool) : RasterEngine :=
  {| ReadOptions := unit;
     rasters_read := fun path _ => rd path;
     rasters_write := fun xds _ => wr xds;
     path_exists := ex;
     quantile := linear_quantile;
     stacked_encoding := fun _ => None;
     UINT16_NODATA := 65535%Q |}.

Definition no_reader (path : PathLike) : Result DataArray :=
  inl (FileNotFoundError (str path)).

(** An engine for [stack_dict] alone. *)
Definition array_engine : RasterEngine :=
  engine no_reader (fun _ => None) (fun _ => false).

(** A Landsat base class reading the tile and the date off the product
    name, as in [LM03_L1GS_033028_19820906_20180414_01_T2]. *)
Definition name_field (i : nat) (p : L3Product) : string :=
  default "" (split "_" (name p) !! i).

Definition landsat : LandsatProduct :=
  {| datetime := fun p => name_field 3 p +:+ "T000000";
     tile_name := name_field 2;
     product_type_value := fun pt =>
       match pt with
       | L1_OLCI => "OLCI" | L1_ETM => "ETM" | L1_TM => "TM" | L1_MSS => "MSS"
       end |}.

(** A harness whose only file is [/data/dem.tif]. *)
Definition harness : Harness :=
  {| DEM_PATH := "EOREADER_DEM_PATH";
     TEST_USING_S3_DB := "TEST_USING_S3_DB";
     S3_DB_URL_ROOT := "S3_DB_URL_ROOT";
     SAR_DEF_RES := "EOREADER_SAR_DEFAULT_RES";
     get_db_dir := inr (PathObj "/mnt/db");
     AnyPath := PathObj;
     joinpath := fun p parts => PathObj (join "/" (str p :: parts));
     is_file := fun p => String.eqb (str p) "/data/dem.tif";
     str_of_float := fun _ => "1000.0" |}.

(** Datasets on a grid of one row. *)
Definition half_red : Dataset := [(RED, [[Some (1 # 2)%Q; None]])].

Definition swir_then_red : Dataset :=
  [(SWIR_2, [[Some (3 # 4)%Q]]); (RED, [[Some (1 # 4)%Q]])].

Definition red_at (v : Q) : Dataset := [(RED, [[Some v]])].

(** Arrays and readers for [read] and [write]. *)
Definition second_of_stack : DataArray :=
  {| coords_band := [2%Z]; values := [[[Some 1%Q]]]; attrs := ∅ |}.

Definition two_bands : DataArray :=
  {| coords_band := [1%Z; 2%Z];
     values := [[[Some 1%Q]]; [[Some 2%Q]]];
     attrs := {[ "long_name" := VStr "RED NIR" ]} |}.

Definition reads_second_of_stack : RasterEngine :=
  engine (fun _ => inr second_of_stack) (fun _ => None) (fun _ => true).

Definition read_fails : RasterEngine :=
  engine (fun _ => inl (RasterioIOError "not recognized as a supported file format"))
    (fun _ => None) (fun _ => true).

Definition l3_name : string := "LM03_L1GS_033028_19820906_20180414_01_T2".

End Reference.

(** ** The rest of [eoreader/utils.py] *)

Module UtilsMore.

(** The characters of a string. *)
Definition chars (s : string) : list ascii := list_ascii_of_string s.

(** [get_split_name]: lines 96-106.  An empty string is falsy. *)
Definition get_split_name (name : string) : list string :=
  List.filter (fun x => negb (String.eqb x "")) (split "_" name).

(** [c.lower()] on one ASCII character, and [s.lower()]. *)
Definition ascii_lower (c : ascii) : ascii :=
  let n := nat_of_ascii c in
  if (65 <=? n)%nat && (n <=? 90)%nat then ascii_of_nat (n + 32) else c.

Fixpoint lower (s : string) : string :=
  match s with
  | EmptyString => EmptyString
  | String c s' => String (ascii_lower c) (lower s')
  end.

(** What the directory and Dask helpers take from the interpreter and the
    operating system: the name of the environment variable
    ([eoreader.env_vars]), whether a module can be imported, the directory
    of [utils.py], and the directory operations of [pathlib] and [os]. *)
Class Runtime : Type := {
  USE_DASK : string;
  can_import : string -> bool;
  file_parent : PathLike;
  parent : PathLike -> PathLike;
  path_joinpath : PathLike -> string -> PathLike;
  is_dir : PathLike -> bool;
  listdir : PathLike -> Result (list string);
  platform_system : string;
  glob : PathLike -> string -> list PathLike;
}.

Section Helpers.
Context `{Runtime}.

(** [use_dask]: lines 110-123, on a given [os.environ]. *)
Definition use_dask (environ : gmap string string) : bool :=
  let _use_dask :=
    bool_decide (lower (default "1" (environ !! USE_DASK)) ∈ ["1"; "true"]) in
  if _use_dask then
    if can_import "dask" && can_import "distributed" then _use_dask else false
  else _use_dask.

(** [get_src_dir] and [get_root_dir]: lines 48-65. *)
Definition get_src_dir : PathLike := file_parent.

Definition get_root_dir : PathLike := parent get_src_dir.

(** The loop of lines 85-88: the first directory that lists at least one
    entry; a listing that raises ends the loop with its exception. *)
Fixpoint first_non_empty (data_dirs : list PathLike) : Result (option PathLike) :=
  match data_dirs with
  | [] => inr None
  | ddir :: rest =>
      match listdir ddir with
      | inl ex => inl ex
      | inr entries =>
          if (0 <? length entries)%nat then inr (Some ddir)
          else first_non_empty rest
      end
  end.

(** [get_data_dir]: lines 68-93. *)
Definition get_data_dir : Result PathLike :=
  let data_dir := path_joinpath get_src_dir "data" in
  let look_elsewhere : Result PathLike :=
    let data_dirs :=
      if String.eqb platform_system "Linux"
      then glob (PathObj "/usr/local/lib") "**/eoreader/data"
      else glob (PathObj "/") "**/eoreader/data" in
    match first_non_empty data_dirs with
    | inl ex => inl ex
    | inr (Some ddir) => inr ddir
    | inr None => inl (FileNotFoundError "Impossible to find the data directory.")
    end in
  if negb (is_dir data_dir) then look_elsewhere
  else
    match listdir data_dir with
    | inl ex => inl ex
    | inr [] => look_elsewhere
    | inr (_ :: _) => inr data_dir
    end.

End Helpers.

(** An [lxml] element: its tag, its text and its child elements. *)
Inductive Element : Type :=
| Elem (tag : string) (text : option string) (children : list Element).

Definition tag (e : Element) : string :=
  match e with Elem t _ _ => t end.

(** What [quick_xml_to_dict] pairs a tag with: the text of the element or
    the dictionary of its children. *)
Inductive XmlValue : Type :=
| XText (text : option string)
| XDict (d : gmap string XmlValue).

(** [dict(pairs)]: a later pair replaces an earlier one with its key. *)
Definition dict_of_pairs (pairs : list (string * XmlValue)) : gmap string XmlValue :=
  fold_left (fun acc kv => <[kv.1 := kv.2]> acc) pairs ∅.

(** [quick_xml_to_dict]: line 278.  An empty dictionary is falsy. *)
Fixpoint quick_xml_to_dict (element : Element) : string * XmlValue :=
  match element with
  | Elem tag text children =>
      let d := dict_of_pairs (map quick_xml_to_dict children) in
      (tag, if bool_decide (d = ∅) then XText text else XDict d)
  end.

End UtilsMore.
Import UtilsMore.

(** ** The rest of [_test_core] *)

Module CIMore.

(** [possible_bands] of [_test_core_optical] and [_test_core_sar]. *)
Definition OPTICAL_POSSIBLE_BANDS : list BandName := [RED; SWIR_2; HILLSHADE; CLOUDS].

Definition SAR_POSSIBLE_BANDS : list BandName := [VV; VV_DSPK; HH; HH_DSPK; SLOPE].

(** Line 163: the possible bands the product has. *)
Definition stack_bands_of (has_band : BandName -> bool)
    (possible_bands : list BandName) : list BandName :=
  List.filter has_band possible_bands.

(** Line 164: [stack_bands[0]], an [IndexError] on an empty list. *)
Definition first_band (has_band : BandName -> bool)
    (possible_bands : list BandName) : Result BandName :=
  match stack_bands_of has_band possible_bands with
  | band :: _ => inr band
  | [] => inl (OtherError "IndexError" "list index out of range")
  end.

(** Lines 126-127: the path with one trailing [/] cut off. *)
Definition without_trailing_slash `{Harness} (path : PathLike) : PathLike :=
  if endswith (str path) "/"
  then AnyPath (substring 0 (String.length (str path) - 1) (str path))
  else path.

End CIMore.
Import CIMore.

(** ** Further reference instances *)

Module ReferenceMore.
Import Reference.

(** An engine whose writer always fails. *)
Definition write_fails : RasterEngine :=
  engine no_reader (fun _ => Some (OtherError "CPLE_AppDefinedError" "disk full"))
    (fun _ => false).

(** An engine whose reader fails on every path and that finds no file. *)
Definition read_fails_nothing_exists : RasterEngine :=
  engine (fun _ => inl (RasterioIOError "No such file or directory"))
    (fun _ => None) (fun _ => false).

(** An engine whose stacked arrays already declare the nodata -9999. *)
Definition declares_nodata : RasterEngine :=
  {| ReadOptions := unit;
     rasters_read := fun path _ => no_reader path;
     rasters_write := fun _ _ => None;
     path_exists := fun _ => false;
     quantile := linear_quantile;
     stacked_encoding := fun _ => Some (- (19998 # 2))%Q;
     UINT16_NODATA := 65535%Q |}.

(** A runtime with both Dask modules, whose packaged data directory is
    empty and whose library tree holds an empty and a filled candidate. *)
Definition runtime : Runtime :=
  {| USE_DASK := "EOREADER_USE_DASK";
     can_import := fun _ => true;
     file_parent := PathObj "/opt/eoreader";
     parent := fun _ => PathObj "/opt";
     path_joinpath := fun p child => PathObj (join "/" [str p; child]);
     is_dir := fun _ => true;
     listdir := fun p =>
       if String.eqb (str p) "/usr/local/lib/python3/eoreader/data"
       then inr ["s2_tiles.kml"] else inr [];
     platform_system := "Linux";
     glob := fun _ _ =>
       [PathObj "/usr/local/lib/old/eoreader/data";
        PathObj "/usr/local/lib/python3/eoreader/data"] |}.

(** The same without the [distributed] module. *)
Definition runtime_without_distributed : Runtime :=
  {| USE_DASK := "EOREADER_USE_DASK";
     can_import := fun m => negb (String.eqb m "distributed");
     file_parent := PathObj "/opt/eoreader";
     parent := fun _ => PathObj "/opt";
     path_joinpath := fun p child => PathObj (join "/" [str p; child]);
     is_dir := fun _ => false;
     listdir := fun _ => inr [];
     platform_system := "Windows";
     glob := fun _ _ => [PathObj "C:/eoreader/data"] |}.

(** A harness whose reference store is missing. *)
Definition harness_without_store : Harness :=
  {| DEM_PATH := "EOREADER_DEM_PATH";
     TEST_USING_S3_DB := "TEST_USING_S3_DB";
     S3_DB_URL_ROOT := "S3_DB_URL_ROOT";
     SAR_DEF_RES := "EOREADER_SAR_DEFAULT_RES";
     get_db_dir := inl (NotADirectoryError "Impossible to open database directory");
     AnyPath := PathObj;
     joinpath := fun p parts => PathObj (join "/" (str p :: parts));
     is_file := fun _ => false;
     str_of_float := fun _ => "1000.0" |}.

(** A band of 1002 pixels, one at -0.05 and the others at 0: its
    0.1-percentile is 0. *)
Definition one_negative_pixel : Dataset :=
  [(RED, [Some (- (1 # 20))%Q :: repeat (Some 0%Q) 1001])].

(** A band with a small negative value and a missing one. *)
Definition noisy_red : Dataset := [(RED, [[Some (- (1 # 20))%Q; None]])].

(** An element with two children of one tag and a third of another. *)
Definition metadata_xml : Element :=
  Elem "product" (Some "ignored")
    [Elem "band" (Some "B3") [];
     Elem "date" (Some "1982-09-06") [];
     Elem "band" (Some "B4") []].

End ReferenceMore.
Import ReferenceMore.

(** * Properties *)

Import Reference.

(** ** Strings and numbers *)

Lemma prefix_refl (s : string) : String.prefix s s = true.
Proof.
  induction s as [|c s IH]; simpl; [done|].
  destruct (ascii_dec c c); [exact IH | done].
Qed.

(** A message built by prefixing a text to [s] names [s]. *)
Lemma contains_append (p s : string) : contains s (p +:+ s) = true.
Proof.
  induction p as [|c p IH]; simpl.
  - destruct s; simpl; [done|].
    rewrite prefix_refl. destruct (ascii_dec a a); done.
  - rewrite IH. apply orb_true_r.
Qed.

Lemma prefix_append (a b : string) : String.prefix a (a +:+ b) = true.
Proof.
  induction a as [|c a IH]; simpl; [by destruct b|].
  destruct (ascii_dec c c); [exact IH | done].
Qed.

(** The same with a text after [s] as well. *)
Lemma contains_infix (p s q : string) : contains s (p +:+ (s +:+ q)) = true.
Proof.
  induction p as [|c p IH]; simpl.
  - destruct s as [|c s]; simpl; [by destruct q|].
    destruct (ascii_dec c c); [|done]. by rewrite prefix_append.
  - rewrite IH. apply orb_true_r.
Qed.

Lemma length_np_arange (n : nat) :
  length (np_arange 1 (Z.of_nat n + 1)) = n.
Proof.
  unfold np_arange. rewrite length_map, length_seq. lia.
Qed.

Lemma lookup_np_arange (n i : nat) :
  (i < n)%nat -> np_arange 1 (Z.of_nat n + 1) !! i = Some (Z.of_nat i + 1)%Z.
Proof.
  intros Hi. unfold np_arange.
  rewrite list_lookup_fmap.
  replace (Z.to_nat (Z.of_nat n + 1 - 1)) with n by lia.
  rewrite lookup_seq_lt by done. simpl. f_equal. lia.
Qed.

(** ** [read] *)

Section ReadProperties.
Context `{RasterEngine}.

(** C5. A successful [read] returns what [rasters.read] returned with the
    coordinates of the band axis renumbered: with [N] the number of bands
    read, the axis has [N] coordinates and the one at position [i] (from 0) is
    [i + 1], so the axis reads 1, 2, ..., N whatever indices the source
    carried.  Values and attributes are those that were read. *)
Theorem read_renumbers_band_axis (path : PathLike) (opts : ReadOptions)
    (arr : DataArray) :
  read path opts = inr arr ->
  exists arr0 : DataArray,
    rasters_read path opts = inr arr0
    /\ length (coords_band arr) = length (coords_band arr0)
    /\ (forall i : nat, (i < length (coords_band arr0))%nat ->
          coords_band arr !! i = Some (Z.of_nat i + 1)%Z)
    /\ coords_band arr = np_arange 1 (Z.of_nat (length (coords_band arr0)) + 1)
    /\ values arr = values arr0
    /\ attrs arr = attrs arr0.
Proof.
  unfold read. intros Hread.
  destruct (rasters_read path opts) as [ex|arr0] eqn:Hraw.
  - destruct ex; try discriminate.
    destruct (known_corruption path); discriminate.
  - exists arr0. injection Hread as <-. simpl.
    split; [done|]. split; [apply length_np_arange|].
    split; [intros i Hi; by apply lookup_np_arange|]. done.
Qed.

(** C4, as the code has it.  When the raster read fails, [read] fails
    too, in one of two ways.  If the exception is a [RasterioIOError] and the
    path is a path object, not a plain string, that ends in [jp2], or ends in
    [tif] and exists, [read] raises an [InvalidProductError] whose message is
    [Corrupted file: ] followed by the path and whose cause is the original
    error.  In every other case (another class of exception, a path given as
    a string, another suffix, a [tif] that does not exist) [read] raises the
    exception [rasters.read] raised, unchanged. *)
Theorem read_failure_classified (path : PathLike) (opts : ReadOptions)
    (ex : Exception) :
  rasters_read path opts = inl ex ->
  ((exists m, ex = RasterioIOError m)
   /\ isinstance_str path = false
   /\ (endswith (str path) "jp2" = true
       \/ (endswith (str path) "tif" = true /\ path_exists path = true)) ->
     read path opts
     = inl (RaisedFrom (InvalidProductError ("Corrupted file: " +:+ str path)) ex)
     /\ contains (str path) ("Corrupted file: " +:+ str path) = true)
  /\ ((forall m, ex <> RasterioIOError m)
      \/ isinstance_str path = true
      \/ (endswith (str path) "jp2" = false
          /\ (endswith (str path) "tif" = false \/ path_exists path = false)) ->
     read path opts = inl ex).
Proof.
  intros Hraw. unfold read, known_corruption. rewrite Hraw. split.
  - intros ([m ->] & Hstr & Hsuffix).
    assert (Hg : endswith (str path) "jp2"
                 || endswith (str path) "tif" && path_exists path = true).
    { destruct Hsuffix as [-> | [-> ->]]; [done | apply orb_true_r]. }
    rewrite Hstr, Hg. split; [reflexivity | apply contains_append].
  - intros Hother. destruct ex; try reflexivity.
    destruct Hother as [Hclass | [Hstr | [Hjp2 Hrest]]].
    + by destruct (Hclass msg).
    + by rewrite Hstr.
    + rewrite Hjp2.
      destruct Hrest as [-> | ->]; rewrite ?andb_false_r; reflexivity.
Qed.

End ReadProperties.

(** ** [write] *)

Section WriteProperties.
Context `{RasterEngine}.

Lemma truthy_get_lookup (d : gmap string Value) (key : string) :
  truthy (get d key) = true -> d !! key = Some (get d key).
Proof.
  unfold get. destruct (d !! key) as [v|]; simpl; [done | discriminate].
Qed.

Lemma set_attr_same (xds : DataArray) (key : string) (v : Value) :
  attrs xds !! key = Some v -> set_attr xds key v = xds.
Proof.
  intros Hv. destruct xds as [c vs a]. unfold set_attr. simpl in *.
  f_equal. by apply insert_id.
Qed.

Lemma set_attr_twice (xds : DataArray) (key : string) (v w : Value) :
  set_attr (set_attr xds key v) key w = set_attr xds key w.
Proof.
  unfold set_attr. simpl. f_equal. apply insert_insert_eq.
Qed.

(** C10. Take a call of [write] that returns normally.  If the array has
    more than one band and a non-empty [long_name], the call leaves the array
    as it found it, so [long_name] has the value it had before, although
    [rasters.write] was handed the array with a string [long_name] replaced
    by the list of its space-separated pieces.  If the array has no (or an
    empty) [long_name], or a single band, [rasters.write] is handed the array
    as it is and the call leaves it as it is. *)
Theorem write_preserves_long_name (xds : DataArray) (path : PathLike) :
  (write xds path).1 = None ->
  (truthy (get (attrs xds) "long_name") = true -> (1 < rio_count xds)%nat ->
     (write xds path).2 = xds
     /\ attrs (write xds path).2 !! "long_name" = attrs xds !! "long_name"
     /\ (forall s : string, attrs xds !! "long_name" = Some (VStr s) ->
           write_long_name_as_list xds
           = inr (set_attr xds "long_name" (VList (split " " s)))))
  /\ (truthy (get (attrs xds) "long_name") = false \/ (rio_count xds <= 1)%nat ->
     write_long_name_as_list xds = inr xds /\ (write xds path).2 = xds).
Proof.
  intros Hok. split.
  - intros Ht Hn.
    pose proof (truthy_get_lookup _ _ Ht) as Hl.
    assert (Hc : (1 <? rio_count xds)%nat = true) by by apply Nat.ltb_lt.
    assert (Hsplit : forall s, attrs xds !! "long_name" = Some (VStr s) ->
              write_long_name_as_list xds
              = inr (set_attr xds "long_name" (VList (split " " s)))).
    { intros s Hs. unfold write_long_name_as_list.
      rewrite Ht, Hc. simpl. unfold get_default. by rewrite Hs. }
    assert (Hfinal : (write xds path).2 = xds).
    { revert Hok. unfold write, write_long_name_as_list.
      rewrite Ht, Hc. simpl. unfold get_default. rewrite Hl. simpl.
      destruct (get (attrs xds) "long_name") as [|s|l|q] eqn:Hv; simpl;
        try (destruct (rasters_write xds path); [discriminate|];
             rewrite Hc; simpl; intros _; by apply set_attr_same).
      destruct (rasters_write _ path); [discriminate|].
      unfold rio_count in *. simpl. rewrite Hc. simpl. intros _.
      rewrite set_attr_twice. by apply set_attr_same. }
    split; [exact Hfinal|]. split; [by rewrite Hfinal | exact Hsplit].
  - intros Hcase.
    assert (Hg : truthy (get (attrs xds) "long_name") && (1 <? rio_count xds)%nat
                 = false).
    { destruct Hcase as [-> | Hn]; [done|].
      apply andb_false_iff. right. by apply Nat.ltb_ge. }
    assert (Hpre : write_long_name_as_list xds = inr xds).
    { unfold write_long_name_as_list. by rewrite Hg. }
    split; [exact Hpre|].
    unfold write. rewrite Hpre.
    destruct (rasters_write xds path); [done|]. by rewrite Hg.
Qed.

End WriteProperties.

(** ** [L3Product] *)

Section L3Properties.
Context `{LandsatProduct}.


(** C7. [condensed_name] depends on the acquisition date, the tile name
    and the product type only: two products that agree on the three have the
    same condensed name, whatever else differs between them, and when the
    product type is set that name is date, [_L3_], tile, [_] and the value
    of the type. *)
Theorem condensed_name_deterministic (p1 p2 : L3Product) :
  datetime p1 = datetime p2 ->
  tile_name p1 = tile_name p2 ->
  product_type p1 = product_type p2 ->
  condensed_name p1 = condensed_name p2
  /\ (forall pt, product_type p1 = Some pt ->
        condensed_name p2
        = inr (datetime p1 +:+ "_L3_" +:+ tile_name p1 +:+ "_"
               +:+ product_type_value pt)).
Proof.
  intros Hd Ht Hp. unfold condensed_name. rewrite <- Hd, <- Ht, <- Hp.
  split; [done|]. by intros pt ->.
Qed.

End L3Properties.

(** ** [set_dem] and the resolution of [_test_core] *)

Section ScriptProperties.
Context `{Harness}.

(** C8. With an explicit path, [set_dem] checks that the path is a file:
    if it is not, a [FileNotFoundError] naming it is raised and
    [os.environ] is as before; if it is, the path is registered under
    [DEM_PATH].  With no path and the S3 flag set, the S3 root must be in
    [os.environ]: if it is missing an exception is raised and [os.environ]
    is as before; if it is there, the DEM registered is the root joined by
    [/] with the sub-directories of the MERIT DEM. *)
Theorem set_dem_policy (env : gmap string string) (dem_path : option string) :
  (dem_path_given dem_path = true ->
     let p := AnyPath (default "" dem_path) in
     (is_file p = false ->
        exists msg : string,
          set_dem dem_path env = (inl (FileNotFoundError msg), env)
          /\ contains (str p) msg = true)
     /\ (is_file p = true ->
        set_dem dem_path env = (inr tt, <[DEM_PATH := str p]> env)))
  /\ (dem_path_given dem_path = false ->
      not_using_s3_db (env !! TEST_USING_S3_DB) = false ->
      (env !! S3_DB_URL_ROOT = None ->
         exists msg : string,
           set_dem dem_path env = (inl (BaseError msg), env)
           /\ contains S3_DB_URL_ROOT msg = true)
      /\ (forall root : string, env !! S3_DB_URL_ROOT = Some root ->
         set_dem dem_path env
         = (inr tt,
            <[DEM_PATH := root +:+ "/GLOBAL/MERIT_Hydrologically_Adjusted_Elevations/MERIT_DEM.vrt"]>
              env))).
Proof.
  split.
  - intros Hg p. unfold set_dem. rewrite Hg. fold p. split; intros Hf; rewrite Hf; simpl.
    + eexists. split; [reflexivity | apply contains_append].
    + reflexivity.
  - intros Hg Hflag. unfold set_dem. rewrite Hg.
    unfold mbind, M_bind, bind, environ_get, environ_has. simpl.
    rewrite Hflag. split.
    + intros Hroot. rewrite Hroot.
      rewrite bool_decide_eq_false_2 by (by intros [? ?]). simpl.
      eexists. split; [reflexivity | apply contains_infix].
    + intros root Hroot. rewrite Hroot.
      rewrite bool_decide_eq_true_2 by eauto. simpl.
      unfold environ_set. do 2 f_equal. by rewrite Hroot.
Qed.

(** C9. The resolution asked of the stack: 1000 for a SAR product (and
    the SAR default resolution is set in [os.environ]), fifty times the
    native resolution for an optical product. *)
Theorem target_resolution_policy (prod : Product) (env : gmap string string) :
  (sensor_type prod = SAR ->
     target_resolution prod env
     = (inr 1000%Q, <[SAR_DEF_RES := str_of_float 1000%Q]> env))
  /\ (sensor_type prod = OPTICAL ->
     target_resolution prod env = (inr (resolution prod * 50)%Q, env)).
Proof.
  unfold target_resolution. split; intros ->; reflexivity.
Qed.

End ScriptProperties.

(** ** [stack_dict] *)

Lemma Qltb_lt (a b : Q) : Qltb a b = true <-> (a < b)%Q.
Proof.
  unfold Qltb. rewrite Qlt_alt. destruct (a ?= b)%Q; split; congruence.
Qed.

(** Rounding to the nearest integer falls below -100 exactly when the
    number is below -100.5: the tie at -100.5 goes to -100. *)
Lemma round_half_even_below (x : Q) :
  (round_half_even x < -100)%Z <-> (x < - (201 # 2))%Q.
Proof.
  unfold round_half_even.
  pose proof (Qfloor_le x) as Hlo. pose proof (Qlt_floor x) as Hhi.
  rewrite inject_Z_plus in Hhi. change (inject_Z 1) with 1%Q in Hhi.
  set (f := Qfloor x) in *.
  assert (Hup : forall n : Z, (f <= n)%Z -> (inject_Z f <= inject_Z n)%Q)
    by (intros n; by rewrite Zle_Qle).
  assert (Hdown : forall n : Z, (inject_Z f < inject_Z n)%Q -> (f < n)%Z)
    by (intros n; by rewrite Zlt_Qlt).
  destruct (Qcompare_spec (x - inject_Z f) (1 # 2)) as [Heq | Hlt | Hgt].
  - destruct (Z.even f) eqn:Hev.
    + split; intros Hr.
      * assert (f <> -101)%Z by (intros ->; discriminate).
        specialize (Hup (-102)%Z ltac:(lia)).
        change (inject_Z (-102)) with (- (102 # 1))%Q in Hup. lra.
      * apply Hdown. change (inject_Z (-100)) with (- (100 # 1))%Q. lra.
    + split; intros Hr.
      * specialize (Hup (-102)%Z ltac:(lia)).
        change (inject_Z (-102)) with (- (102 # 1))%Q in Hup. lra.
      * assert (f < -101)%Z; [|lia].
        apply Hdown. change (inject_Z (-101)) with (- (101 # 1))%Q. lra.
  - split; intros Hr.
    + specialize (Hup (-101)%Z ltac:(lia)).
      change (inject_Z (-101)) with (- (101 # 1))%Q in Hup. lra.
    + apply Hdown. change (inject_Z (-100)) with (- (100 # 1))%Q. lra.
  - split; intros Hr.
    + specialize (Hup (-102)%Z ltac:(lia)).
      change (inject_Z (-102)) with (- (102 # 1))%Q in Hup. lra.
    + assert (f < -101)%Z; [|lia].
      apply Hdown. change (inject_Z (-101)) with (- (101 # 1))%Q. lra.
Qed.

(** *** Rounding to a double *)

(** Powers of two. *)
Lemma pow2_pos k : (0 < pow2 k)%Q.
Proof. apply Qpower_0_lt. reflexivity. Qed.

Lemma pow2_plus a b : (pow2 (a + b) == pow2 a * pow2 b)%Q.
Proof. apply Qpower_plus. discriminate. Qed.

Lemma pow2_le a b : (a <= b)%Z -> (pow2 a <= pow2 b)%Q.
Proof. intros. apply Qpower_le_compat_l; [done|]. discriminate. Qed.

Lemma pow2_lt_inv a b : (pow2 a < pow2 b)%Q -> (a < b)%Z.
Proof. intros. eapply Qpower_lt_compat_l_inv; [eassumption|reflexivity]. Qed.

Lemma pow2_Z n : (0 <= n)%Z -> (inject_Z (2 ^ n) == pow2 n)%Q.
Proof. intros. by apply Zpower_Qpower. Qed.

(** Rounding to the nearest integer: one of the two neighbours, the
    identity on integers, and monotone. *)
Lemma round_half_even_cases (x : Q) :
  round_half_even x = Qfloor x \/ round_half_even x = (Qfloor x + 1)%Z.
Proof.
  unfold round_half_even.
  destruct (_ ?= _)%Q; [destruct (Z.even _)| |]; auto.
Qed.

Lemma round_half_even_Z (n : Z) : round_half_even (inject_Z n) = n.
Proof.
  unfold round_half_even. rewrite Qfloor_Z.
  assert (H : (inject_Z n - inject_Z n ?= 1 # 2)%Q = Lt).
  { rewrite <- Qlt_alt. generalize (inject_Z n). intros z. lra. }
  by rewrite H.
Qed.

Lemma round_half_even_le (x y : Q) :
  (x <= y)%Q -> (round_half_even x <= round_half_even y)%Z.
Proof.
  intros Hxy.
  pose proof (Qfloor_resp_le _ _ Hxy) as Hf.
  pose proof (Qfloor_le x) as Hx. pose proof (Qfloor_le y) as Hy.
  destruct (Z.eq_dec (Qfloor x) (Qfloor y)) as [He | Hne].
  - unfold round_half_even. rewrite <- He.
    destruct (Qcompare_spec (x - inject_Z (Qfloor x)) (1 # 2)) as [Hx2 | Hx2 | Hx2];
      destruct (Qcompare_spec (y - inject_Z (Qfloor x)) (1 # 2)) as [Hy2 | Hy2 | Hy2];
      try destruct (Z.even (Qfloor x)); try lia; lra.
  - destruct (round_half_even_cases x) as [-> | ->],
      (round_half_even_cases y) as [-> | ->]; lia.
Qed.

(** The quotient of two numbers known up to a factor of two. *)
Lemma quotient_between (x P Q0 A B C : Q) :
  (0 < Q0)%Q -> (0 < B)%Q -> (0 < C)%Q ->
  (x * Q0 == P)%Q -> (A == C * B)%Q ->
  (A <= P)%Q -> (P < 2 * A)%Q -> (B <= Q0)%Q -> (Q0 < 2 * B)%Q ->
  (C * (1 # 2) < x)%Q /\ (x < 2 * C)%Q.
Proof.
  intros HQ HB HC Hx HA H1 H2 H3 H4. split.
  - apply (Qmult_lt_r _ _ Q0 HQ). rewrite Hx.
    apply Qlt_le_trans with (C * B)%Q; [|by rewrite <- HA].
    assert (H : (C * (Q0 * (1 # 2)) < C * B)%Q).
    { apply Qmult_lt_l; [done | lra]. }
    lra.
  - apply (Qmult_lt_r _ _ Q0 HQ). rewrite Hx.
    apply Qlt_le_trans with (2 * (C * B))%Q; [by rewrite <- HA|].
    assert (H : (C * B <= C * Q0)%Q).
    { apply Qmult_le_l; done. }
    lra.
Qed.

Lemma pow2_succ k : (pow2 (k + 1) == 2 * pow2 k)%Q.
Proof. rewrite pow2_plus. change (pow2 1) with 2%Q. ring. Qed.

(** [ilog2] is the exponent: [2^e <= x < 2^(e+1)]. *)
Lemma ilog2_spec (x : Q) :
  (0 < x)%Q -> (pow2 (ilog2 x) <= x)%Q /\ (x < pow2 (ilog2 x + 1))%Q.
Proof.
  intros Hx. destruct x as [p q].
  assert (Hp : (0 < p)%Z).
  { unfold Qlt in Hx. simpl in Hx. lia. }
  unfold ilog2. simpl Qnum. simpl Qden.
  set (a := Z.log2 p). set (b := Z.log2 (Z.pos q)).
  pose proof (Z.log2_spec p Hp) as [Ha1 Ha2].
  pose proof (Z.log2_spec (Z.pos q) ltac:(lia)) as [Hb1 Hb2].
  fold a in Ha1, Ha2. fold b in Hb1, Hb2.
  assert (Ha0 : (0 <= a)%Z) by apply Z.log2_nonneg.
  assert (Hb0 : (0 <= b)%Z) by apply Z.log2_nonneg.
  replace (Z.succ a) with (a + 1)%Z in Ha2 by lia.
  replace (Z.succ b) with (b + 1)%Z in Hb2 by lia.
  rewrite Zle_Qle, pow2_Z in Ha1, Hb1 by lia.
  rewrite Zlt_Qlt, pow2_Z, pow2_succ in Ha2, Hb2 by lia.
  assert (Hqpos : (0 < inject_Z (Z.pos q))%Q).
  { change 0%Q with (inject_Z 0). rewrite <- Zlt_Qlt. lia. }
  assert (Hab : (pow2 a == pow2 (a - b) * pow2 b)%Q).
  { rewrite <- pow2_plus. by replace (a - b + b)%Z with a by lia. }
  assert (Hx' : ((p # q) * inject_Z (Z.pos q) == inject_Z p)%Q).
  { rewrite (Qmake_Qdiv p q). field. lra. }
  destruct (quotient_between _ _ _ _ _ _ Hqpos (pow2_pos b) (pow2_pos (a - b))
              Hx' Hab Ha1 Ha2 Hb1 Hb2) as [Hlo Hhi].
  destruct (Qle_bool (pow2 (a - b)) (p # q)) eqn:Hc.
  - apply Qle_bool_iff in Hc. split; [done|]. by rewrite pow2_succ.
  - assert (Hlt : (p # q < pow2 (a - b))%Q).
    { apply Qnot_le_lt. intros Hle. apply Qle_bool_iff in Hle. congruence. }
    replace (a - b - 1 + 1)%Z with (a - b)%Z by lia. split; [|done].
    assert (Hh : (pow2 (a - b) == 2 * pow2 (a - b - 1))%Q).
    { rewrite <- pow2_succ. by replace (a - b - 1 + 1)%Z with (a - b)%Z by lia. }
    lra.
Qed.

(** The double nearest to a positive number stays within its binade, ends
    included, and the rounding of positive numbers keeps the order. *)
Lemma fl64_pos_bounds (x : Q) :
  (0 < x)%Q ->
  (pow2 (ilog2 x) <= fl64_pos x)%Q /\ (fl64_pos x <= pow2 (ilog2 x + 1))%Q.
Proof.
  intros Hx. destruct (ilog2_spec x Hx) as [Hlo Hhi].
  unfold fl64_pos. set (e := ilog2 x) in *. set (k := (e - 52)%Z).
  pose proof (pow2_pos k) as Hk.
  assert (He : (pow2 e == inject_Z (2 ^ 52) * pow2 k)%Q).
  { rewrite pow2_Z by lia. rewrite <- pow2_plus.
    by replace (52 + k)%Z with e by lia. }
  assert (He1 : (pow2 (e + 1) == inject_Z (2 ^ 53) * pow2 k)%Q).
  { rewrite pow2_Z by lia. rewrite <- pow2_plus.
    by replace (53 + k)%Z with (e + 1)%Z by lia. }
  assert (Hd : (x / pow2 k * pow2 k == x)%Q) by (field; lra).
  assert (H52 : (inject_Z (2 ^ 52) <= x / pow2 k)%Q).
  { apply (Qmult_le_r _ _ (pow2 k) Hk). rewrite Hd, <- He. done. }
  assert (H53 : (x / pow2 k <= inject_Z (2 ^ 53))%Q).
  { apply (Qmult_le_r _ _ (pow2 k) Hk). rewrite Hd, <- He1. lra. }
  apply round_half_even_le in H52, H53. rewrite round_half_even_Z in H52, H53.
  rewrite Zle_Qle in H52, H53.
  split.
  - rewrite He. apply Qmult_le_compat_r; [done | lra].
  - rewrite He1. apply Qmult_le_compat_r; [done | lra].
Qed.

Lemma fl64_pos_le (x y : Q) :
  (0 < x)%Q -> (x <= y)%Q -> (fl64_pos x <= fl64_pos y)%Q.
Proof.
  intros Hx Hxy. assert (Hy : (0 < y)%Q) by lra.
  destruct (ilog2_spec x Hx) as [Hxlo Hxhi].
  destruct (ilog2_spec y Hy) as [Hylo Hyhi].
  assert (He : (ilog2 x < ilog2 y + 1)%Z).
  { apply pow2_lt_inv. lra. }
  destruct (Z.eq_dec (ilog2 x) (ilog2 y)) as [Heq | Hne].
  - unfold fl64_pos. rewrite Heq. set (k := (ilog2 y - 52)%Z).
    pose proof (pow2_pos k) as Hk.
    apply Qmult_le_compat_r; [|lra].
    rewrite <- Zle_Qle. apply round_half_even_le.
    apply Qmult_le_compat_r; [done|].
    apply Qlt_le_weak, Qinv_lt_0_compat. done.
  - destruct (fl64_pos_bounds x Hx) as [_ Hbx].
    destruct (fl64_pos_bounds y Hy) as [Hby _].
    assert (Hp : (pow2 (ilog2 x + 1) <= pow2 (ilog2 y))%Q) by (apply pow2_le; lia).
    lra.
Qed.

(** Rounding keeps the sign. *)
Lemma Qnum_sign (x : Q) :
  match Qnum x with
  | Z0 => (x == 0)%Q
  | Zpos _ => (0 < x)%Q
  | Zneg _ => (x < 0)%Q
  end.
Proof.
  destruct x as [[|p|p] q]; unfold Qeq, Qlt; simpl; lia.
Qed.

Lemma fl64_sign (x : Q) :
  match Qnum x with
  | Z0 => (fl64 x == 0)%Q
  | Zpos _ => (0 < fl64 x)%Q
  | Zneg _ => (fl64 x < 0)%Q
  end.
Proof.
  pose proof (Qnum_sign x) as Hs. unfold fl64.
  destruct (Qnum x) eqn:Hn; rewrite ?Qred_correct.
  - reflexivity.
  - destruct (fl64_pos_bounds x Hs) as [Hb _].
    pose proof (pow2_pos (ilog2 x)). lra.
  - assert (Hx : (0 < - x)%Q) by lra.
    destruct (fl64_pos_bounds (- x) Hx) as [Hb _].
    pose proof (pow2_pos (ilog2 (- x))). lra.
Qed.

(** Rounding to a double keeps the order. *)
Lemma fl64_le (x y : Q) : (x <= y)%Q -> (fl64 x <= fl64 y)%Q.
Proof.
  intros Hxy.
  pose proof (Qnum_sign x) as Hsx. pose proof (Qnum_sign y) as Hsy.
  pose proof (fl64_sign x) as Hfx. pose proof (fl64_sign y) as Hfy.
  destruct (Qnum x) eqn:Hnx, (Qnum y) eqn:Hny; try lra.
  - unfold fl64. rewrite Hnx, Hny, !Qred_correct. by apply fl64_pos_le.
  - unfold fl64. rewrite Hnx, Hny, !Qred_correct.
    assert (H : (fl64_pos (- y) <= fl64_pos (- x))%Q).
    { apply fl64_pos_le; lra. }
    lra.
Qed.

(** The test of line 391 on an estimate that is a number.  The product of
    the estimate by 1000 is a double; the test holds exactly when that
    double is below -100.5, the tie at -100.5 being rounded to -100. *)
Lemma fallback_test_iff (q : Q) :
  flt (fdiv (np_round (fmul (Some q) (Some 1000%Q))) (Some 1000%Q))
      (Some (literal (- (1 # 10)))) = true
  <-> (fl64 (q * 1000) < - (201 # 2))%Q.
Proof.
  unfold flt, fdiv, np_round, fmul, literal. rewrite Qltb_lt.
  rewrite <- round_half_even_below.
  set (r := round_half_even (fl64 (q * 1000))).
  split.
  - intros Hlt. destruct (Z_lt_le_dec r (-100)) as [Hr | Hr]; [done|].
    exfalso. rewrite Zle_Qle in Hr.
    change (inject_Z (-100)) with (- (100 # 1))%Q in Hr.
    assert (Hq : (- (1 # 10) <= inject_Z r / 1000)%Q).
    { unfold Qdiv. change (/ 1000)%Q with (1 # 1000)%Q. lra. }
    apply fl64_le in Hq. lra.
  - intros Hr. assert (Hr' : (r <= -101)%Z) by lia.
    rewrite Zle_Qle in Hr'.
    change (inject_Z (-101)) with (- (101 # 1))%Q in Hr'.
    assert (Hq : (inject_Z r / 1000 <= - (101 # 1000))%Q).
    { unfold Qdiv. change (/ 1000)%Q with (1 # 1000)%Q. lra. }
    apply fl64_le in Hq.
    assert (Hc : (fl64 (- (101 # 1000)) < fl64 (- (1 # 10)))%Q)
      by (vm_compute; reflexivity).
    lra.
Qed.

(** An estimate at or above -0.1005 has a product at or above -100.5; an
    estimate at or below -0.101 has a product at or below -101. *)
Lemma product_not_below (q : Q) :
  (- (1005 # 10000) <= q)%Q -> ~ (fl64 (q * 1000) < - (201 # 2))%Q.
Proof.
  intros Hq Hlt.
  assert (Hp : (- (201 # 2) <= q * 1000)%Q) by lra.
  apply fl64_le in Hp.
  assert (Hc : (fl64 (- (201 # 2)) == - (201 # 2))%Q) by (vm_compute; reflexivity).
  lra.
Qed.

Lemma product_below (q : Q) :
  (q <= - (101 # 1000))%Q -> (fl64 (q * 1000) < - (201 # 2))%Q.
Proof.
  intros Hq.
  assert (Hp : (q * 1000 <= - (101 # 1))%Q) by lra.
  apply fl64_le in Hp.
  assert (Hc : (fl64 (- (101 # 1)) == - (101 # 1))%Q) by (vm_compute; reflexivity).
  lra.
Qed.

Section StackProperties.
Context `{RasterEngine} `{BandCatalog}.

(** One turn of the loop of lines 404-415 returns the dataset it was
    given, and so does the loop. *)
Lemma scale_band_dataset (scale : Q) (band_xds : Dataset)
    (item : BandName * Grid) :
  (scale_band scale band_xds item).1 = band_xds.
Proof.
  destruct item as [band band_xda]. unfold scale_band.
  destruct (is_sat_band band || is_index band); [|done].
  by destruct (fgt _ _).
Qed.

Lemma for_items_scale_band (scale : Q) (band_xds : Dataset)
    (items : list (BandName * Grid)) :
  (for_items (scale_band scale) band_xds items).1 = band_xds.
Proof.
  induction items as [|item rest IH]; simpl; [done|].
  pose proof (scale_band_dataset scale band_xds item) as Hone.
  destruct (scale_band scale band_xds item) as [ds1 log1].
  simpl in Hone. subst ds1.
  destruct (for_items (scale_band scale) band_xds rest) as [ds2 log2].
  exact IH.
Qed.

Lemma map_fst_dataset_map (f : Pixel -> Pixel) (band_xds : Dataset) :
  map fst (dataset_map f band_xds) = map fst band_xds.
Proof. unfold dataset_map. rewrite map_map. done. Qed.

Lemma map_snd_dataset_map (f : Pixel -> Pixel) (band_xds : Dataset) :
  map snd (dataset_map f band_xds) = map (grid_map f) (map snd band_xds).
Proof. unfold dataset_map. rewrite !map_map. done. Qed.

(** What [encode] stacks on each of its three paths. *)
Lemma encode_fallback (band_xds : Dataset) (nodata q : Q) :
  quantile (to_array band_xds) (1 # 1000)%Q = Some q ->
  (fl64 (q * 1000) < - (201 # 2))%Q ->
  encode band_xds true nodata
  = (band_xds, float32,
     [WARNING (CannotConvert (Some q) (literal (- (1 # 10))))]).
Proof.
  intros Hq Hlt. unfold encode. rewrite Hq.
  apply fallback_test_iff in Hlt. by rewrite Hlt.
Qed.

Lemma encode_no_fallback (band_xds : Dataset) (nodata q : Q) :
  quantile (to_array band_xds) (1 # 1000)%Q = Some q ->
  ~ (fl64 (q * 1000) < - (201 # 2))%Q ->
  (encode band_xds true nodata).1.2 = uint16
  /\ ((q < 0)%Q ->
      exists log : list LogRecord,
        encode band_xds true nodata
        = (dataset_map (fillna nodata) (dataset_map (clip_min 0) band_xds),
           uint16, WARNING SmallNegative :: log)).
Proof.
  intros Hq Hge. unfold encode. rewrite Hq.
  destruct (flt (fdiv _ _) _) eqn:Ht.
  { apply fallback_test_iff in Ht. tauto. }
  destruct (flt (Some q) (Some 0%Q)) eqn:Hn.
  - pose proof (for_items_scale_band 10000 (dataset_map (clip_min 0) band_xds)
                  (dataset_map (clip_min 0) band_xds)) as Hloop.
    destruct (for_items _ _ _) as [ds log]. simpl in Hloop. subst ds.
    split; [done|]. intros _. by exists log.
  - pose proof (for_items_scale_band 10000 band_xds band_xds) as Hloop.
    destruct (for_items _ _ _) as [ds log]. simpl in Hloop. subst ds.
    split; [done|]. intros Hneg. apply Qltb_lt in Hneg.
    simpl in Hn. congruence.
Qed.

Lemma encode_clipped (band_xds : Dataset) (nodata q : Q) :
  quantile (to_array band_xds) (1 # 1000)%Q = Some q ->
  (- (1005 # 10000) <= q)%Q -> (q < 0)%Q ->
  exists log : list LogRecord,
    encode band_xds true nodata
    = (dataset_map (fillna nodata) (dataset_map (clip_min 0) band_xds),
       uint16, WARNING SmallNegative :: log).
Proof.
  intros Hq Hge Hneg. unfold encode. rewrite Hq.
  destruct (flt (fdiv _ _) _) eqn:Ht.
  { apply fallback_test_iff in Ht. by destruct (product_not_below q Hge). }
  assert (Hn : flt (Some q) (Some 0%Q) = true) by by apply Qltb_lt.
  rewrite Hn.
  pose proof (for_items_scale_band 10000 (dataset_map (clip_min 0) band_xds)
                (dataset_map (clip_min 0) band_xds)) as Hloop.
  destruct (for_items _ _ _) as [ds log]. simpl in Hloop. subst ds.
  by exists log.
Qed.

Lemma encode_plain (band_xds : Dataset) (nodata : Q) :
  flt (quantile (to_array band_xds) (1 # 1000)%Q) (Some 0%Q) = false ->
  exists log : list LogRecord,
    encode band_xds true nodata
    = (dataset_map (fillna nodata) band_xds, uint16, log).
Proof.
  intros Hn. unfold encode.
  destruct (flt (fdiv _ _) _) eqn:Ht.
  { destruct (quantile _ _) as [q|]; [|discriminate].
    apply fallback_test_iff in Ht. apply not_true_iff_false in Hn.
    exfalso. apply Hn. apply Qltb_lt.
    destruct (Qlt_le_dec q 0) as [Hneg | Hpos]; [done|].
    destruct (product_not_below q ltac:(lra) Ht). }
  rewrite Hn.
  pose proof (for_items_scale_band 10000 band_xds band_xds) as Hloop.
  destruct (for_items _ _ _) as [ds log]. simpl in Hloop. subst ds.
  by exists log.
Qed.

(** The band axis of the stack is the variable order of the dataset, and
    the dimensions are (bands, y, x), whatever [bands] is. *)
Lemma stack_dict_band_axis (bands : list BandName) (band_xds : Dataset)
    (save_as_int : bool) (nodata : Q) :
  stack_bands (stack_dict bands band_xds save_as_int nodata).1.1 = map fst band_xds
  /\ dims (stack_dict bands band_xds save_as_int nodata).1.1 = ["bands"; "y"; "x"].
Proof.
  unfold stack_dict.
  assert (He : map fst (encode band_xds save_as_int nodata).1.1 = map fst band_xds).
  { unfold encode. destruct save_as_int; [|done].
    destruct (flt (fdiv _ _) _); [done|].
    destruct (flt (quantile _ _) _).
    - pose proof (for_items_scale_band 10000 (dataset_map (clip_min 0) band_xds)
                    (dataset_map (clip_min 0) band_xds)) as Hloop.
      destruct (for_items _ _ _) as [ds log]. simpl in *. subst ds.
      by rewrite !map_fst_dataset_map.
    - pose proof (for_items_scale_band 10000 band_xds band_xds) as Hloop.
      destruct (for_items _ _ _) as [ds log]. simpl in *. subst ds.
      by rewrite map_fst_dataset_map. }
  destruct (encode band_xds save_as_int nodata) as [[ds dtype] log].
  simpl in He. destruct dtype; simpl; [|done].
  destruct (nodata_differs _ _); done.
Qed.

(** C3, as the code has it.  With [save_as_int] set and an estimate [q] of
    the 0.1-percentile, the test is made on the product of [q] by 1000 as a
    double, rounded to the nearest integer with ties to even.  When that
    double is below -100.5 the stack is returned with its values as they
    were, the dtype is float32 and the warning is logged; this is so for
    every estimate at or below -0.101.  When it is not, encoding proceeds
    and the dtype is uint16, and when the estimate is moreover negative
    every value below 0 is clipped to 0 before missing values are filled,
    and a warning is logged; this is so for every estimate at or above
    -0.1005, hence at -0.1 and at estimates strictly below -0.1 such as
    -0.1002.  Between -0.101 and -0.1005 the double product decides. *)
Theorem stack_dict_int_encoding_threshold (bands : list BandName)
    (band_xds : Dataset) (nodata q : Q) :
  quantile (to_array band_xds) (1 # 1000)%Q = Some q ->
  ((fl64 (q * 1000) < - (201 # 2))%Q ->
     (stack_dict bands band_xds true nodata).1.2 = float32
     /\ WARNING (CannotConvert (Some q) (literal (- (1 # 10))))
        ∈ (stack_dict bands band_xds true nodata).2
     /\ stack_values (stack_dict bands band_xds true nodata).1.1
        = map snd band_xds)
  /\ (~ (fl64 (q * 1000) < - (201 # 2))%Q ->
     (stack_dict bands band_xds true nodata).1.2 = uint16
     /\ ((q < 0)%Q ->
         stack_values (stack_dict bands band_xds true nodata).1.1
         = map (grid_map (fillna nodata))
             (map (grid_map (clip_min 0)) (map snd band_xds))
         /\ WARNING SmallNegative ∈ (stack_dict bands band_xds true nodata).2))
  /\ ((q <= - (101 # 1000))%Q -> (fl64 (q * 1000) < - (201 # 2))%Q)
  /\ ((- (1005 # 10000) <= q)%Q -> ~ (fl64 (q * 1000) < - (201 # 2))%Q).
Proof.
  intros Hq. split; [|split; [|split]].
  - intros Hlt. unfold stack_dict.
    rewrite (encode_fallback _ _ _ Hq Hlt). simpl.
    destruct (nodata_differs _ _); simpl; (split; [done|]); (split; [|done]);
      repeat constructor.
  - intros Hge. destruct (encode_no_fallback band_xds nodata q Hq Hge)
      as [Hdtype Hclip].
    split.
    + unfold stack_dict.
      destruct (encode band_xds true nodata) as [[ds dtype] log].
      simpl in Hdtype. by subst dtype.
    + intros Hneg. destruct (Hclip Hneg) as [log He].
      unfold stack_dict. rewrite He. simpl.
      rewrite !map_snd_dataset_map. split; [done | repeat constructor].
  - apply product_below.
  - apply product_not_below.
Qed.

End StackProperties.

(** ** The statements on concrete inputs *)

(** C1. On a dataset holding the satellite band [RED] with the reflectance
    0.5 and one missing value, with [save_as_int] set: [RED] is a satellite
    band, its maximum does not exceed [UINT16_NODATA / 10000], the estimate
    does not trigger the fallback (the dtype is uint16) and the missing value
    is filled with the nodata; yet the value stacked for 0.5 is 0.5, not
    5000.  The product by the scale is bound to the loop variable and never
    stored in the dataset. *)
Theorem stack_dict_loses_scaling :
  @is_sat_band spec_catalog RED = true
  /\ fgt (np_nanmax [[Some (1 # 2)%Q; None]])
         (Some (@UINT16_NODATA array_engine / 10000)%Q) = false
  /\ fgt (np_nanmax [[Some (1 # 2)%Q; None]])
         (fdiv (Some (@UINT16_NODATA array_engine)) (Some 10000%Q)) = false
  /\ @stack_dict array_engine spec_catalog [RED] half_red true 65535%Q
     = ({| dims := ["bands"; "y"; "x"];
           stack_bands := [RED];
           stack_values := [[[Some (1 # 2)%Q; Some 65535%Q]]];
           encoded_nodata := None |},
        uint16, [DEBUG Stacking]).
Proof. repeat split; reflexivity. Qed.

(** C2. [stack_dict] does not read its argument [bands]: asked for
    [RED; SWIR_2] on a dataset holding [SWIR_2] before [RED], it returns the
    band axis [SWIR_2; RED]; asked for [RED] alone on the same dataset, it
    returns two bands.  The dimensions are (bands, y, x). *)
Theorem stack_dict_ignores_band_list :
  stack_bands (@stack_dict array_engine spec_catalog [RED; SWIR_2]
                 swir_then_red false 0%Q).1.1 = [SWIR_2; RED]
  /\ length (stack_bands (@stack_dict array_engine spec_catalog [RED]
                            swir_then_red false 0%Q).1.1) = 2%nat
  /\ dims (@stack_dict array_engine spec_catalog [RED; SWIR_2]
             swir_then_red false 0%Q).1.1 = ["bands"; "y"; "x"].
Proof. repeat split; reflexivity. Qed.

(** C3 as the specification words it fails: on a dataset whose only value
    is -0.1002, the estimate is -0.1002, which is strictly less than -0.1,
    and the dtype returned is uint16, not float32. *)
Lemma stack_dict_fallback_counterexample :
  @quantile array_engine (to_array (red_at (- (501 # 5000))%Q)) (1 # 1000)%Q
  = Some (- (501 # 5000))%Q
  /\ (- (501 # 5000) < - (1 # 10))%Q
  /\ (@stack_dict array_engine spec_catalog [RED]
        (red_at (- (501 # 5000))%Q) true 65535%Q).1.2 = uint16
  /\ (@stack_dict array_engine spec_catalog [RED]
        (red_at (- (501 # 5000))%Q) true 65535%Q).1.2 <> float32.
Proof.
  repeat split; try (vm_compute; reflexivity).
  intros Hf. vm_compute in Hf. discriminate.
Qed.

Lemma stack_dict_int_encoding_threshold_witness :
  @quantile array_engine (to_array (red_at (- (1 # 10))%Q)) (1 # 1000)%Q
  = Some (- (1 # 10))%Q
  /\ (@stack_dict array_engine spec_catalog [RED]
        (red_at (- (1 # 10))%Q) true 65535%Q).1.2 = uint16
  /\ stack_values (@stack_dict array_engine spec_catalog [RED]
                     (red_at (- (1 # 10))%Q) true 65535%Q).1.1
     = [[[Some 0%Q]]]
  /\ (fl64 (- (1005 # 10000)) < - (1005 # 10000))%Q
  /\ (@stack_dict array_engine spec_catalog [RED]
        (red_at (fl64 (- (1005 # 10000)))) true 65535%Q).1.2 = uint16
  /\ (@stack_dict array_engine spec_catalog [RED]
        (red_at (- (1 # 5))%Q) true 65535%Q).1.2 = float32.
Proof.
  assert (Hq : @quantile array_engine (to_array (red_at (- (1 # 10))%Q))
                 (1 # 1000)%Q = Some (- (1 # 10))%Q) by reflexivity.
  destruct (@stack_dict_int_encoding_threshold array_engine spec_catalog [RED]
              (red_at (- (1 # 10))%Q) 65535%Q (- (1 # 10))%Q Hq)
    as (_ & Hint & _ & Habove).
  assert (Hge : (- (1005 # 10000) <= - (1 # 10))%Q) by (vm_compute; discriminate).
  assert (Hneg : (- (1 # 10) < 0)%Q) by reflexivity.
  destruct (Hint (Habove Hge)) as [Hdtype Hclip].
  destruct (Hclip Hneg) as [Hvalues _].
  split; [exact Hq|]. split; [exact Hdtype|].
  split; [rewrite Hvalues; reflexivity|].
  split; [vm_compute; reflexivity|].
  split.
  - destruct (@stack_dict_int_encoding_threshold array_engine spec_catalog [RED]
                (red_at (fl64 (- (1005 # 10000)))) 65535%Q
                (fl64 (- (1005 # 10000))) eq_refl) as (_ & Hedge & _).
    apply Hedge. intros Hlt. vm_compute in Hlt. discriminate.
  - destruct (@stack_dict_int_encoding_threshold array_engine spec_catalog [RED]
                (red_at (- (1 # 5))%Q) 65535%Q (- (1 # 5))%Q eq_refl)
      as (Hfall & _ & Hbelow & _).
    apply Hfall, Hbelow. vm_compute. discriminate.
Defined.

Lemma read_renumbers_band_axis_witness :
  @read reads_second_of_stack (PathObj "stack.tif") tt
  = inr (assign_coords_band second_of_stack [1%Z])
  /\ exists arr0 : DataArray,
       @rasters_read reads_second_of_stack (PathObj "stack.tif") tt = inr arr0
       /\ coords_band arr0 = [2%Z]
       /\ coords_band (assign_coords_band second_of_stack [1%Z]) !! 0%nat
          = Some 1%Z.
Proof.
  assert (Hr : @read reads_second_of_stack (PathObj "stack.tif") tt
               = inr (assign_coords_band second_of_stack [1%Z])) by reflexivity.
  split; [exact Hr|].
  destruct (@read_renumbers_band_axis reads_second_of_stack _ _ _ Hr)
    as (arr0 & Hraw & _ & Hnth & _).
  exists arr0. split; [exact Hraw|].
  assert (arr0 = second_of_stack) as -> by (injection Hraw; auto).
  split; [reflexivity|]. apply Hnth. simpl. lia.
Defined.

Lemma read_failure_classified_witness :
  @read read_fails (PathObj "T30_B04.jp2") tt
  = inl (RaisedFrom (InvalidProductError "Corrupted file: T30_B04.jp2")
           (RasterioIOError "not recognized as a supported file format"))
  /\ contains "T30_B04.jp2" "Corrupted file: T30_B04.jp2" = true
  /\ @read read_fails (PyStr "T30_B04.jp2") tt
     = inl (RasterioIOError "not recognized as a supported file format").
Proof.
  destruct (@read_failure_classified read_fails (PathObj "T30_B04.jp2") tt
              (RasterioIOError "not recognized as a supported file format")
              eq_refl) as [Hwrap _].
  destruct (@read_failure_classified read_fails (PyStr "T30_B04.jp2") tt
              (RasterioIOError "not recognized as a supported file format")
              eq_refl) as [_ Hsame].
  destruct Hwrap as [Hread Hnames].
  { split; [by eexists|]. split; [reflexivity|]. left. reflexivity. }
  split; [exact Hread|]. split; [exact Hnames|].
  apply Hsame. right. left. reflexivity.
Defined.

(** C4 as the specification words it fails both ways.  A file that is
    there and that the raster engine cannot decode, named by a plain string,
    does not surface as an [InvalidProductError]: the [RasterioIOError] is
    raised as it is.  And a file that is not there at all, named by a path
    object ending in [jp2], is not re-raised unchanged: it is reported as a
    corrupted file. *)
Lemma read_corrupted_file_counterexample :
  (@path_exists read_fails (PyStr "T30_B04.jp2") = true
   /\ @rasters_read read_fails (PyStr "T30_B04.jp2") tt
      = inl (RasterioIOError "not recognized as a supported file format")
   /\ @read read_fails (PyStr "T30_B04.jp2") tt
      = inl (RasterioIOError "not recognized as a supported file format")
   /\ forall msg cause,
        @read read_fails (PyStr "T30_B04.jp2") tt
        <> inl (RaisedFrom (InvalidProductError msg) cause))
  /\ (@path_exists read_fails_nothing_exists (PathObj "gone.jp2") = false
      /\ @rasters_read read_fails_nothing_exists (PathObj "gone.jp2") tt
         = inl (RasterioIOError "No such file or directory")
      /\ @read read_fails_nothing_exists (PathObj "gone.jp2") tt
         <> inl (RasterioIOError "No such file or directory")).
Proof.
  repeat split; discriminate.
Qed.

Lemma write_preserves_long_name_witness :
  (@write reads_second_of_stack two_bands (PathObj "out.tif")).1 = None
  /\ (@write reads_second_of_stack two_bands (PathObj "out.tif")).2 = two_bands
  /\ @write_long_name_as_list two_bands
     = inr (set_attr two_bands "long_name" (VList ["RED"; "NIR"]))
  /\ (@write reads_second_of_stack second_of_stack (PathObj "out.tif")).2
     = second_of_stack.
Proof.
  assert (Hok : (@write reads_second_of_stack two_bands (PathObj "out.tif")).1
                = None) by reflexivity.
  destruct (@write_preserves_long_name reads_second_of_stack two_bands
              (PathObj "out.tif") Hok) as [Hmulti _].
  destruct (Hmulti eq_refl ltac:(unfold rio_count, two_bands; simpl; lia))
    as (Hsame & _ & Hsplit).
  split; [exact Hok|]. split; [exact Hsame|]. split.
  - apply (Hsplit "RED NIR"). reflexivity.
  - assert (Hok1 : (@write reads_second_of_stack second_of_stack
                      (PathObj "out.tif")).1 = None) by reflexivity.
    destruct (@write_preserves_long_name reads_second_of_stack second_of_stack
                (PathObj "out.tif") Hok1) as [_ Hsingle].
    apply Hsingle. left. reflexivity.
Defined.



Lemma condensed_name_deterministic_witness :
  @condensed_name landsat
    {| name := l3_name; product_type := Some L1_MSS; band_names := ∅ |}
  = @condensed_name landsat
      {| name := "LM03_L1TP_033028_19820906_20200101_02_T1";
         product_type := Some L1_MSS;
         band_names := {[ RED := "5" ]} |}
  /\ @condensed_name landsat
       {| name := "LM03_L1TP_033028_19820906_20200101_02_T1";
          product_type := Some L1_MSS;
          band_names := {[ RED := "5" ]} |}
     = inr "19820906T000000_L3_033028_MSS".
Proof.
  destruct (@condensed_name_deterministic landsat
              {| name := l3_name; product_type := Some L1_MSS; band_names := ∅ |}
              {| name := "LM03_L1TP_033028_19820906_20200101_02_T1";
                 product_type := Some L1_MSS;
                 band_names := {[ RED := "5" ]} |}
              eq_refl eq_refl eq_refl) as [Hsame Hformat].
  split; [exact Hsame|]. exact (Hformat L1_MSS eq_refl).
Defined.

Lemma set_dem_policy_witness :
  (exists msg : string,
     @set_dem harness (Some "/data/none.tif") ∅ = (inl (FileNotFoundError msg), ∅)
     /\ contains "/data/none.tif" msg = true)
  /\ @set_dem harness (Some "/data/dem.tif") ∅
     = (inr tt, {[ "EOREADER_DEM_PATH" := "/data/dem.tif" ]})
  /\ (exists msg : string,
        @set_dem harness None {[ "TEST_USING_S3_DB" := "1" ]}
        = (inl (BaseError msg), {[ "TEST_USING_S3_DB" := "1" ]})
        /\ contains "S3_DB_URL_ROOT" msg = true)
  /\ @set_dem harness None
       (<[ "S3_DB_URL_ROOT" := "https://s3.unistra.fr/db" ]>
          {[ "TEST_USING_S3_DB" := "1" ]})
     = (inr tt,
        <[ "EOREADER_DEM_PATH" :=
             "https://s3.unistra.fr/db/GLOBAL/MERIT_Hydrologically_Adjusted_Elevations/MERIT_DEM.vrt" ]>
          (<[ "S3_DB_URL_ROOT" := "https://s3.unistra.fr/db" ]>
             {[ "TEST_USING_S3_DB" := "1" ]})).
Proof.
  split; [|split; [|split]].
  - destruct (@set_dem_policy harness ∅ (Some "/data/none.tif")) as [Hgiven _].
    destruct (Hgiven eq_refl) as [Hmissing _]. exact (Hmissing eq_refl).
  - destruct (@set_dem_policy harness ∅ (Some "/data/dem.tif")) as [Hgiven _].
    destruct (Hgiven eq_refl) as [_ Hfile]. exact (Hfile eq_refl).
  - destruct (@set_dem_policy harness {[ "TEST_USING_S3_DB" := "1" ]} None)
      as [_ Hnone].
    destruct (Hnone eq_refl eq_refl) as [Hnoroot _]. exact (Hnoroot eq_refl).
  - destruct (@set_dem_policy harness
                (<[ "S3_DB_URL_ROOT" := "https://s3.unistra.fr/db" ]>
                   {[ "TEST_USING_S3_DB" := "1" ]}) None) as [_ Hnone].
    destruct (Hnone eq_refl eq_refl) as [_ Hroot].
    exact (Hroot "https://s3.unistra.fr/db" eq_refl).
Defined.

Lemma target_resolution_policy_witness :
  @target_resolution harness {| sensor_type := SAR; resolution := 10%Q |} ∅
  = (inr 1000%Q, {[ "EOREADER_SAR_DEFAULT_RES" := "1000.0" ]})
  /\ @target_resolution harness {| sensor_type := OPTICAL; resolution := 10%Q |} ∅
     = (inr (10 * 50)%Q, ∅).
Proof.
  split.
  - destruct (@target_resolution_policy harness
                {| sensor_type := SAR; resolution := 10%Q |} ∅) as [Hsar _].
    exact (Hsar eq_refl).
  - destruct (@target_resolution_policy harness
                {| sensor_type := OPTICAL; resolution := 10%Q |} ∅) as [_ Hopt].
    exact (Hopt eq_refl).
Defined.

(** * Further properties *)

(** ** Splitting and joining *)

Lemma split_not_nil (sep : ascii) (s : string) : split sep s <> [].
Proof.
  destruct s as [|c s]; simpl; [done|].
  destruct (Ascii.eqb c sep); [done|]. by destruct (split sep s).
Qed.

(** Joining the pieces with the separator gives the string back. *)
Lemma join_split (sep : ascii) (s : string) :
  join (String sep EmptyString) (split sep s) = s.
Proof.
  unfold join. induction s as [|c s IH]; simpl; [done|].
  destruct (Ascii.eqb c sep) eqn:Hc.
  - apply Ascii.eqb_eq in Hc. subst c.
    pose proof (split_not_nil sep s) as Hne.
    destruct (split sep s) as [|h t]; [done|].
    simpl in *. by rewrite IH.
  - destruct (split sep s) as [|h t] eqn:Hs; [by destruct (split_not_nil sep s)|].
    destruct t as [|h' t]; simpl in *; by rewrite <- IH.
Qed.

(** No piece holds the separator. *)
Lemma split_pieces_free (sep : ascii) (s x : string) :
  In x (split sep s) -> ~ In sep (chars x).
Proof.
  revert x. induction s as [|c s IH]; simpl; intros x Hx.
  - destruct Hx as [<- | []]. simpl. tauto.
  - destruct (Ascii.eqb c sep) eqn:Hc.
    + destruct Hx as [<- | Hx]; [simpl; tauto | by apply IH].
    + apply Ascii.eqb_neq in Hc.
      destruct (split sep s) as [|h t] eqn:Hs.
      * destruct Hx as [<- | []]. simpl. intros [? | []]. congruence.
      * destruct Hx as [<- | Hx].
        -- simpl. intros [? | Hin]; [congruence|].
           apply (IH h); [by left | exact Hin].
        -- apply IH. by right.
Qed.

(** A string free of the separator is its own single piece, and is cut
    off whole when a separator follows it. *)
Lemma split_free (sep : ascii) (x : string) :
  ~ In sep (chars x) -> split sep x = [x].
Proof.
  induction x as [|c x IH]; simpl; intros Hx; [done|].
  destruct (Ascii.eqb c sep) eqn:Hc.
  - apply Ascii.eqb_eq in Hc. tauto.
  - rewrite IH by tauto. done.
Qed.

Lemma split_free_then (sep : ascii) (x rest : string) :
  ~ In sep (chars x) ->
  split sep (x +:+ String sep rest) = x :: split sep rest.
Proof.
  induction x as [|c x IH]; simpl; intros Hx.
  - by rewrite Ascii.eqb_refl.
  - destruct (Ascii.eqb c sep) eqn:Hc.
    + apply Ascii.eqb_eq in Hc. tauto.
    + rewrite IH by tauto. done.
Qed.

(** Splitting what was joined gives the pieces back. *)
Lemma split_join (sep : ascii) (pieces : list string) :
  pieces <> [] ->
  (forall x, In x pieces -> ~ In sep (chars x)) ->
  split sep (join (String sep EmptyString) pieces) = pieces.
Proof.
  unfold join. induction pieces as [|x rest IH]; [done|].
  intros _ Hfree. destruct rest as [|y rest].
  - simpl. apply split_free. apply Hfree. by left.
  - change (String.concat (String sep "") (x :: y :: rest))
      with (x +:+ String sep (String.concat (String sep "") (y :: rest))).
    rewrite split_free_then by (apply Hfree; by left).
    f_equal. apply IH; [done|]. intros z Hz. apply Hfree. by right.
Qed.

(** ** [get_split_name] *)

(** X1. No piece returned by [get_split_name] is empty and none holds an
    underscore. *)
Theorem get_split_name_pieces (name x : string) :
  In x (get_split_name name) -> x <> "" /\ ~ In "_"%char (chars x).
Proof.
  unfold get_split_name. rewrite filter_In. intros [Hx Hne]. split.
  - intros ->. discriminate.
  - by apply (split_pieces_free "_" name).
Qed.

(** X2. Joining with underscores and splitting again is the identity on
    lists of non-empty pieces free of underscores; the empty list comes back
    from the empty name. *)
Theorem get_split_name_join (pieces : list string) :
  (forall x, In x pieces -> x <> "" /\ ~ In "_"%char (chars x)) ->
  get_split_name (join "_" pieces) = pieces.
Proof.
  intros Hp. unfold get_split_name.
  destruct pieces as [|x rest]; [reflexivity|].
  rewrite split_join; [|done|intros z Hz; by apply Hp].
  apply forallb_filter_id. apply forallb_forall. intros z Hz.
  apply negb_true_iff, String.eqb_neq. by apply Hp.
Qed.

Lemma get_split_name_pieces_witness :
  In "L1GS" (get_split_name "_LM03__L1GS_") /\ "L1GS" <> ""
  /\ ~ In "_"%char (chars "L1GS").
Proof.
  assert (Hin : In "L1GS" (get_split_name "_LM03__L1GS_"))
    by (simpl; tauto).
  split; [exact Hin|]. exact (get_split_name_pieces _ _ Hin).
Defined.

Lemma get_split_name_join_witness :
  get_split_name (join "_" ["LM03"; "L1GS"; "033028"]) = ["LM03"; "L1GS"; "033028"].
Proof.
  apply get_split_name_join. intros x Hx. simpl in Hx.
  destruct Hx as [<- | [<- | [<- | []]]]; (split; [discriminate|]); simpl;
    intuition discriminate.
Defined.

(** ** More on [write] *)

Section WriteMore.
Context `{RasterEngine}.

(** X3. [write] raises nothing of its own: its exception is the one of
    [rasters.write], which is handed the bands, the coordinates and every
    attribute but [long_name] as they are; and when [write] is over, whether
    it returned or raised, nothing but [long_name] can have changed. *)
Theorem write_touches_only_long_name (xds : DataArray) (path : PathLike) :
  exists xds1 : DataArray,
    write_long_name_as_list xds = inr xds1
    /\ (write xds path).1 = rasters_write xds1 path
    /\ coords_band xds1 = coords_band xds
    /\ values xds1 = values xds
    /\ (forall key, key <> "long_name" -> attrs xds1 !! key = attrs xds !! key)
    /\ coords_band (write xds path).2 = coords_band xds
    /\ values (write xds path).2 = values xds
    /\ (forall key, key <> "long_name" ->
          attrs (write xds path).2 !! key = attrs xds !! key).
Proof.
  assert (Hpre : exists xds1, write_long_name_as_list xds = inr xds1
            /\ coords_band xds1 = coords_band xds
            /\ values xds1 = values xds
            /\ (forall key, key <> "long_name" ->
                  attrs xds1 !! key = attrs xds !! key)).
  { unfold write_long_name_as_list.
    destruct (truthy _ && _); [|by exists xds].
    destruct (get_default _ _ _) as [|s|l|q]; simpl; try by exists xds.
    eexists. split; [reflexivity|]. simpl. repeat split.
    intros key Hk. by rewrite lookup_insert_ne. }
  destruct Hpre as (xds1 & Hpre & Hc & Hv & Ha).
  exists xds1. unfold write. rewrite Hpre.
  destruct (rasters_write xds1 path) as [ex|]; simpl.
  - repeat split; auto.
  - destruct (truthy _ && _); simpl; repeat split; auto.
    intros key Hk. rewrite lookup_insert_ne by done. by apply Ha.
Qed.

(** X4. There is no clean-up on failure: when [rasters.write] raises on
    an array of several bands with a non-empty string [long_name], [write]
    raises the same exception and leaves [long_name] as the list of the
    pieces. *)
Theorem write_failure_leaves_list (xds : DataArray) (path : PathLike)
    (s : string) (ex : Exception) :
  attrs xds !! "long_name" = Some (VStr s) ->
  s <> "" ->
  (1 < rio_count xds)%nat ->
  rasters_write (set_attr xds "long_name" (VList (split " " s))) path = Some ex ->
  write xds path = (Some ex, set_attr xds "long_name" (VList (split " " s))).
Proof.
  intros Hs Hne Hn Hw.
  assert (Ht : truthy (get (attrs xds) "long_name") = true).
  { unfold get. rewrite Hs. simpl. apply negb_true_iff. by apply String.eqb_neq. }
  assert (Hc : (1 <? rio_count xds)%nat = true) by by apply Nat.ltb_lt.
  unfold write, write_long_name_as_list. rewrite Ht, Hc. simpl.
  unfold get_default. rewrite Hs. simpl. by rewrite Hw.
Qed.

End WriteMore.

Lemma write_failure_leaves_list_witness :
  @write write_fails two_bands (PathObj "out.tif")
  = (Some (OtherError "CPLE_AppDefinedError" "disk full"),
     set_attr two_bands "long_name" (VList ["RED"; "NIR"])).
Proof.
  apply (@write_failure_leaves_list write_fails two_bands (PathObj "out.tif")
           "RED NIR"); try reflexivity; [discriminate|].
  unfold rio_count, two_bands. simpl. lia.
Defined.

(** X5. The list handed to [rasters.write] loses nothing: for an array of
    several bands with a non-empty string [long_name], the pieces hold no
    space and, joined by single spaces, give [long_name] back. *)
Theorem write_long_name_list_rejoins (xds : DataArray) (s : string) :
  attrs xds !! "long_name" = Some (VStr s) ->
  s <> "" ->
  (1 < rio_count xds)%nat ->
  exists pieces : list string,
    write_long_name_as_list xds = inr (set_attr xds "long_name" (VList pieces))
    /\ join " " pieces = s
    /\ (forall x, In x pieces -> ~ In " "%char (chars x)).
Proof.
  intros Hs Hne Hn. exists (split " " s).
  split; [|split].
  - unfold write_long_name_as_list, get, get_default. rewrite Hs. simpl.
    assert (Hc : (1 <? rio_count xds)%nat = true) by by apply Nat.ltb_lt.
    rewrite Hc.
    assert (He : String.eqb s "" = false) by by apply String.eqb_neq.
    by rewrite He.
  - apply join_split.
  - intros x. apply split_pieces_free.
Qed.

Lemma write_long_name_list_rejoins_witness :
  exists pieces : list string,
    write_long_name_as_list two_bands
    = inr (set_attr two_bands "long_name" (VList pieces))
    /\ join " " pieces = "RED NIR"
    /\ (forall x, In x pieces -> ~ In " "%char (chars x)).
Proof.
  apply (write_long_name_list_rejoins two_bands "RED NIR");
    [reflexivity | discriminate |].
  unfold rio_count, two_bands. simpl. lia.
Defined.

(** ** More on [read] *)

Lemma endswith_tif_not_jp2 (s : string) :
  endswith s "tif" = true -> endswith s "jp2" = false.
Proof.
  unfold endswith. simpl String.length.
  destruct (3 <=? String.length s)%nat; simpl; [|done].
  intros Ht. apply String.eqb_eq in Ht. rewrite Ht. reflexivity.
Qed.

Section ReadMore.
Context `{RasterEngine}.

(** X6. A path given as a plain string is never reported as a corrupted
    file: whatever [rasters.read] raises on it is raised as it is. *)
Theorem read_str_path_never_wrapped (s : string) (opts : ReadOptions)
    (ex : Exception) :
  rasters_read (PyStr s) opts = inl ex ->
  read (PyStr s) opts = inl ex.
Proof.
  intros Hraw. unfold read. rewrite Hraw. by destruct ex.
Qed.

(** X7. On a path object the two suffixes are not treated alike when
    [rasters.read] raises a [RasterioIOError]: a path ending in [jp2] is
    reported as a corrupted file whether or not it exists, a path ending in
    [tif] that does not exist gets the [RasterioIOError] unchanged. *)
Theorem read_jp2_and_missing_tif (s : string) (opts : ReadOptions) (m : string) :
  rasters_read (PathObj s) opts = inl (RasterioIOError m) ->
  (endswith s "jp2" = true ->
     read (PathObj s) opts
     = inl (RaisedFrom (InvalidProductError ("Corrupted file: " +:+ s))
              (RasterioIOError m)))
  /\ (endswith s "tif" = true -> path_exists (PathObj s) = false ->
     read (PathObj s) opts = inl (RasterioIOError m)).
Proof.
  intros Hraw. unfold read, known_corruption. rewrite Hraw. simpl. split.
  - by intros ->.
  - intros Ht He. rewrite (endswith_tif_not_jp2 _ Ht), Ht, He. done.
Qed.

End ReadMore.

Lemma read_str_path_never_wrapped_witness :
  @read read_fails (PyStr "T30_B04.jp2") tt
  = inl (RasterioIOError "not recognized as a supported file format").
Proof.
  apply (@read_str_path_never_wrapped read_fails). reflexivity.
Defined.

Lemma read_jp2_and_missing_tif_witness :
  @read read_fails_nothing_exists (PathObj "gone.jp2") tt
  = inl (RaisedFrom (InvalidProductError "Corrupted file: gone.jp2")
           (RasterioIOError "No such file or directory"))
  /\ @read read_fails_nothing_exists (PathObj "gone.tif") tt
     = inl (RasterioIOError "No such file or directory").
Proof.
  split.
  - destruct (@read_jp2_and_missing_tif read_fails_nothing_exists "gone.jp2" tt
                "No such file or directory" eq_refl) as [Hjp2 _].
    exact (Hjp2 eq_refl).
  - destruct (@read_jp2_and_missing_tif read_fails_nothing_exists "gone.tif" tt
                "No such file or directory" eq_refl) as [_ Htif].
    exact (Htif eq_refl eq_refl).
Defined.

(** ** More on [stack_dict] *)

Lemma in_grids_map (f : Pixel -> Pixel) (grids : list Grid) (g : Grid)
    (row : list Pixel) (p : Pixel) :
  In g (map (grid_map f) grids) -> In row g -> In p row ->
  exists (g0 : Grid) (row0 : list Pixel) (p0 : Pixel),
    In g0 grids /\ In row0 g0 /\ In p0 row0 /\ p = f p0.
Proof.
  intros Hg Hrow Hp.
  apply in_map_iff in Hg as (g0 & <- & Hg0).
  apply in_map_iff in Hrow as (row0 & <- & Hrow0).
  apply in_map_iff in Hp as (p0 & <- & Hp0).
  by exists g0, row0, p0.
Qed.

Lemma grid_map_shape (f : Pixel -> Pixel) (g : Grid) :
  map (@length Pixel) (grid_map f g) = map (@length Pixel) g.
Proof.
  unfold grid_map. rewrite map_map. apply map_ext. intros row.
  apply length_map.
Qed.

Lemma grids_map_shape (h : Grid -> Grid) (grids : list Grid) :
  (forall g, map (@length Pixel) (h g) = map (@length Pixel) g) ->
  Forall2 (fun g g0 : Grid => map (@length Pixel) g = map (@length Pixel) g0)
    (map h grids) grids.
Proof.
  intros Hh. induction grids as [|g grids IH]; simpl; constructor;
    [apply Hh | exact IH].
Qed.

Section StackMore.
Context `{RasterEngine} `{BandCatalog}.

(** The stack holds the grids [encode] returns, under its dtype. *)
Lemma stack_dict_of_encode (bands : list BandName) (band_xds : Dataset)
    (save_as_int : bool) (nodata : Q) :
  stack_values (stack_dict bands band_xds save_as_int nodata).1.1
  = map snd (encode band_xds save_as_int nodata).1.1
  /\ (stack_dict bands band_xds save_as_int nodata).1.2
     = (encode band_xds save_as_int nodata).1.2.
Proof.
  unfold stack_dict.
  destruct (encode band_xds save_as_int nodata) as [[ds dtype] log]. simpl.
  destruct dtype; [destruct (nodata_differs _ _)|]; done.
Qed.

(** The three outcomes of [encode]. *)
Lemma encode_cases (band_xds : Dataset) (save_as_int : bool) (nodata : Q) :
  ((encode band_xds save_as_int nodata).1.2 = float32
   /\ (encode band_xds save_as_int nodata).1.1 = band_xds)
  \/ ((encode band_xds save_as_int nodata).1.2 = uint16
      /\ ((encode band_xds save_as_int nodata).1.1
          = dataset_map (fillna nodata) band_xds
          \/ (encode band_xds save_as_int nodata).1.1
             = dataset_map (fillna nodata) (dataset_map (clip_min 0) band_xds))).
Proof.
  unfold encode. destruct save_as_int; [|by left].
  destruct (flt (fdiv _ _) _); [by left|]. right.
  destruct (flt (quantile _ _) _).
  - pose proof (for_items_scale_band 10000 (dataset_map (clip_min 0) band_xds)
                  (dataset_map (clip_min 0) band_xds)) as Hloop.
    destruct (for_items _ _ _) as [ds log]. simpl in *. subst ds. auto.
  - pose proof (for_items_scale_band 10000 band_xds band_xds) as Hloop.
    destruct (for_items _ _ _) as [ds log]. simpl in *. subst ds. auto.
Qed.

(** X8. Whatever the path taken, the stack has one grid per variable of
    the dataset and each grid has the shape of its variable: no row and no
    pixel is added or dropped. *)
Theorem stack_dict_keeps_shape (bands : list BandName) (band_xds : Dataset)
    (save_as_int : bool) (nodata : Q) :
  Forall2 (fun g g0 : Grid => map (@length Pixel) g = map (@length Pixel) g0)
    (stack_values (stack_dict bands band_xds save_as_int nodata).1.1)
    (map snd band_xds).
Proof.
  destruct (stack_dict_of_encode bands band_xds save_as_int nodata) as [-> _].
  destruct (encode_cases band_xds save_as_int nodata)
    as [[_ ->] | [_ [-> | ->]]].
  - rewrite <- (map_id (map snd band_xds)) at 1. by apply grids_map_shape.
  - rewrite map_snd_dataset_map. apply grids_map_shape. apply grid_map_shape.
  - rewrite !map_snd_dataset_map, map_map. apply grids_map_shape.
    intros g. by rewrite !grid_map_shape.
Qed.

(** X9. When the dtype returned is uint16, no missing value is left in
    the stack. *)
Theorem stack_dict_uint16_has_no_nan (bands : list BandName) (band_xds : Dataset)
    (save_as_int : bool) (nodata : Q) (g : Grid) (row : list Pixel) (p : Pixel) :
  (stack_dict bands band_xds save_as_int nodata).1.2 = uint16 ->
  In g (stack_values (stack_dict bands band_xds save_as_int nodata).1.1) ->
  In row g -> In p row ->
  p <> None.
Proof.
  destruct (stack_dict_of_encode bands band_xds save_as_int nodata) as [-> ->].
  intros Hdtype Hg Hrow Hp.
  destruct (encode_cases band_xds save_as_int nodata)
    as [[Hf _] | [_ [He | He]]]; [congruence| |];
    rewrite He, map_snd_dataset_map in Hg;
    destruct (in_grids_map _ _ _ _ _ Hg Hrow Hp) as (_ & _ & p0 & _ & _ & _ & ->);
    by destruct p0.
Qed.

(** X10. When the dtype returned is float32 (no [save_as_int], or the
    fallback), the nodata the stack declares is the nodata asked for. *)
Theorem stack_dict_float32_declares_nodata (bands : list BandName)
    (band_xds : Dataset) (save_as_int : bool) (nodata : Q) :
  (stack_dict bands band_xds save_as_int nodata).1.2 = float32 ->
  exists e : Q,
    encoded_nodata (stack_dict bands band_xds save_as_int nodata).1.1 = Some e
    /\ (e == nodata)%Q.
Proof.
  unfold stack_dict.
  destruct (encode band_xds save_as_int nodata) as [[ds dtype] log]. simpl.
  intros ->. destruct (nodata_differs _ _) eqn:Hd; simpl.
  - exists nodata. split; [done | reflexivity].
  - simpl in Hd. destruct (stacked_encoding ds) as [e|]; [|discriminate].
    exists e. split; [done|]. simpl in Hd.
    apply negb_false_iff in Hd. by apply Qeq_bool_iff.
Qed.

(** X11. With [save_as_int], an estimate that is negative but does not
    trigger the fallback, and a nodata that is not negative, every value of
    the stack is a number that is not negative. *)
Theorem stack_dict_clipped_not_negative (bands : list BandName)
    (band_xds : Dataset) (nodata q : Q) (g : Grid) (row : list Pixel) (p : Pixel) :
  quantile (to_array band_xds) (1 # 1000)%Q = Some q ->
  (- (1005 # 10000) <= q)%Q -> (q < 0)%Q ->
  (0 <= nodata)%Q ->
  In g (stack_values (stack_dict bands band_xds true nodata).1.1) ->
  In row g -> In p row ->
  exists v : Q, p = Some v /\ (0 <= v)%Q.
Proof.
  intros Hq Hge Hneg Hnodata Hg Hrow Hp.
  destruct (stack_dict_of_encode bands band_xds true nodata) as [Hv _].
  rewrite Hv in Hg.
  destruct (encode_clipped band_xds nodata q Hq Hge Hneg) as [log He].
  rewrite He in Hg. simpl in Hg. rewrite !map_snd_dataset_map in Hg.
  destruct (in_grids_map _ _ _ _ _ Hg Hrow Hp) as (g1 & row1 & p1 & Hg1 & Hrow1 & Hp1 & ->).
  destruct (in_grids_map _ _ _ _ _ Hg1 Hrow1 Hp1) as (_ & _ & p0 & _ & _ & _ & ->).
  destruct p0 as [v|]; simpl.
  - destruct (Qltb v 0) eqn:Hlt; eexists; (split; [reflexivity|]); [lra|].
    destruct (Qlt_le_dec v 0) as [Hv0 | Hv0]; [|exact Hv0].
    apply Qltb_lt in Hv0. congruence.
  - by exists nodata.
Qed.

(** X12. Clipping hangs on the estimate alone: with [save_as_int] and an
    estimate that is zero, positive or NaN, the dtype is uint16 and the stack
    holds the values of the dataset with missing values filled and nothing
    else changed, so a negative value below the 0.1-percentile stays
    negative. *)
Theorem stack_dict_no_clip_without_negative_estimate (bands : list BandName)
    (band_xds : Dataset) (nodata : Q) :
  (quantile (to_array band_xds) (1 # 1000)%Q = None
   \/ exists q : Q, quantile (to_array band_xds) (1 # 1000)%Q = Some q
                    /\ (0 <= q)%Q) ->
  (stack_dict bands band_xds true nodata).1.2 = uint16
  /\ stack_values (stack_dict bands band_xds true nodata).1.1
     = map (grid_map (fillna nodata)) (map snd band_xds).
Proof.
  intros Hq.
  destruct (stack_dict_of_encode bands band_xds true nodata) as [-> ->].
  destruct (encode_plain band_xds nodata) as [log He].
  { destruct Hq as [-> | (q & -> & Hq)]; [done|]. simpl.
    apply not_true_iff_false. intros Ht. apply Qltb_lt in Ht. lra. }
  rewrite He. simpl. by rewrite map_snd_dataset_map.
Qed.

End StackMore.

Lemma stack_dict_uint16_has_no_nan_witness :
  (@stack_dict array_engine spec_catalog [RED] half_red true 65535%Q).1.2 = uint16
  /\ In (Some 65535%Q)
       (concat (concat (stack_values
          (@stack_dict array_engine spec_catalog [RED] half_red true 65535%Q).1.1)))
  /\ Some 65535%Q <> (None : Pixel).
Proof.
  split; [reflexivity|]. split; [vm_compute; tauto|].
  apply (@stack_dict_uint16_has_no_nan array_engine spec_catalog [RED] half_red
           true 65535%Q [[Some (1 # 2)%Q; Some 65535%Q]]
           [Some (1 # 2)%Q; Some 65535%Q]);
    [reflexivity | vm_compute; tauto | simpl; tauto | simpl; tauto].
Defined.

Lemma stack_dict_float32_declares_nodata_witness :
  (@stack_dict declares_nodata spec_catalog [SWIR_2; RED] swir_then_red false
     (- (9999 # 1))%Q).1.2 = float32
  /\ exists e : Q,
       encoded_nodata (@stack_dict declares_nodata spec_catalog [SWIR_2; RED]
                         swir_then_red false (- (9999 # 1))%Q).1.1 = Some e
       /\ (e == - (9999 # 1))%Q.
Proof.
  split; [reflexivity|].
  apply (@stack_dict_float32_declares_nodata declares_nodata spec_catalog).
  reflexivity.
Defined.

Lemma stack_dict_clipped_not_negative_witness :
  @quantile array_engine (to_array noisy_red) (1 # 1000)%Q = Some (- (1 # 20))%Q
  /\ exists v : Q, Some 0%Q = Some v /\ (0 <= v)%Q.
Proof.
  split; [reflexivity|].
  apply (@stack_dict_clipped_not_negative array_engine spec_catalog [RED]
           noisy_red 65535%Q (- (1 # 20))%Q [[Some 0%Q; Some 65535%Q]]
           [Some 0%Q; Some 65535%Q]);
    [reflexivity | vm_compute; discriminate | reflexivity
     | vm_compute; discriminate | vm_compute; tauto | simpl; tauto
     | simpl; tauto].
Defined.

Lemma stack_dict_no_clip_without_negative_estimate_witness :
  @quantile array_engine (to_array one_negative_pixel) (1 # 1000)%Q = Some 0%Q
  /\ (@stack_dict array_engine spec_catalog [RED] one_negative_pixel true
        65535%Q).1.2 = uint16
  /\ stack_values (@stack_dict array_engine spec_catalog [RED] one_negative_pixel
                     true 65535%Q).1.1
     = [[Some (- (1 # 20))%Q :: repeat (Some 0%Q) 1001]].
Proof.
  assert (Hq : @quantile array_engine (to_array one_negative_pixel) (1 # 1000)%Q
               = Some 0%Q) by (vm_compute; reflexivity).
  split; [exact Hq|].
  destruct (@stack_dict_no_clip_without_negative_estimate array_engine
              spec_catalog [RED] one_negative_pixel 65535%Q) as [Hdtype Hvalues].
  { right. exists 0%Q. split; [exact Hq | vm_compute; discriminate]. }
  split; [exact Hdtype|]. rewrite Hvalues. vm_compute. reflexivity.
Defined.

(** ** [quick_xml_to_dict] *)

(** Inserting pairs one after the other: a key that does not occur keeps
    its entry, the last pair of a key gives its entry, and every entry comes
    from the start or from a pair. *)
Lemma lookup_insert_pairs_other (pairs : list (string * XmlValue))
    (acc : gmap string XmlValue) (k : string) :
  ~ In k (map fst pairs) ->
  fold_left (fun acc kv => <[kv.1 := kv.2]> acc) pairs acc !! k = acc !! k.
Proof.
  revert acc. induction pairs as [|[k0 v0] pairs IH]; simpl; intros acc Hk; [done|].
  rewrite IH by tauto. apply lookup_insert_ne. tauto.
Qed.

Lemma lookup_insert_pairs_last (before after : list (string * XmlValue))
    (acc : gmap string XmlValue) (k : string) (v : XmlValue) :
  ~ In k (map fst after) ->
  fold_left (fun acc kv => <[kv.1 := kv.2]> acc) (before ++ (k, v) :: after) acc !! k
  = Some v.
Proof.
  intros Hk. rewrite fold_left_app. simpl.
  rewrite lookup_insert_pairs_other by done. apply lookup_insert_eq.
Qed.

Lemma lookup_insert_pairs_source (pairs : list (string * XmlValue))
    (acc : gmap string XmlValue) (k : string) (v : XmlValue) :
  fold_left (fun acc kv => <[kv.1 := kv.2]> acc) pairs acc !! k = Some v ->
  acc !! k = Some v \/ In (k, v) pairs.
Proof.
  revert acc. induction pairs as [|[k0 v0] pairs IH]; simpl; intros acc Hk; [by left|].
  destruct (IH _ Hk) as [Hacc | Hin]; [|by right; right].
  destruct (decide (k0 = k)) as [-> | Hne].
  - rewrite lookup_insert_eq in Hacc. injection Hacc as ->. right. by left.
  - rewrite lookup_insert_ne in Hacc by done. by left.
Qed.

Lemma quick_xml_to_dict_tag (element : Element) :
  (quick_xml_to_dict element).1 = tag element.
Proof. by destruct element. Qed.

(** X13. For an element with at least one child, [quick_xml_to_dict]
    pairs the tag with a dictionary and drops the text of the element.  The
    dictionary has an entry under the tag of every child and under nothing
    else, and the entry under a tag is the conversion of the last child with
    that tag: earlier siblings of the same tag are overwritten. *)
Theorem quick_xml_to_dict_children (t : string) (text : option string)
    (children : list Element) :
  children <> [] ->
  exists d : gmap string XmlValue,
    quick_xml_to_dict (Elem t text children) = (t, XDict d)
    /\ (forall before c after,
          children = before ++ c :: after ->
          (forall c', In c' after -> tag c' <> tag c) ->
          d !! tag c = Some (quick_xml_to_dict c).2)
    /\ (forall k v, d !! k = Some v ->
          exists c, In c children /\ tag c = k /\ v = (quick_xml_to_dict c).2).
Proof.
  intros Hne.
  set (d := dict_of_pairs (map quick_xml_to_dict children)).
  assert (Hlast : forall before c after,
            children = before ++ c :: after ->
            (forall c', In c' after -> tag c' <> tag c) ->
            d !! tag c = Some (quick_xml_to_dict c).2).
  { intros before c after -> Hafter. unfold d, dict_of_pairs.
    rewrite map_app. simpl.
    rewrite (surjective_pairing (quick_xml_to_dict c)) at 1.
    rewrite quick_xml_to_dict_tag.
    apply lookup_insert_pairs_last.
    rewrite map_map. intros Hin. apply in_map_iff in Hin as (c' & Ht & Hc').
    rewrite quick_xml_to_dict_tag in Ht. by apply (Hafter c'). }
  assert (Hd : d <> ∅).
  { destruct (exists_last Hne) as (before & c & Hc).
    intros He. specialize (Hlast before c [] Hc ltac:(simpl; tauto)).
    rewrite He, lookup_empty in Hlast. discriminate. }
  exists d. split; [|split; [exact Hlast|]].
  - change (quick_xml_to_dict (Elem t text children))
      with (t, if bool_decide (d = ∅) then XText text else XDict d).
    by rewrite bool_decide_eq_false_2.
  - intros k v Hk. unfold d, dict_of_pairs in Hk.
    apply lookup_insert_pairs_source in Hk as [Hk | Hin].
    + rewrite lookup_empty in Hk. discriminate.
    + apply in_map_iff in Hin as (c & Hc & Hin). exists c.
      split; [exact Hin|]. rewrite <- quick_xml_to_dict_tag, Hc. done.
Qed.

Lemma quick_xml_to_dict_children_witness :
  exists d : gmap string XmlValue,
    quick_xml_to_dict metadata_xml = ("product", XDict d)
    /\ d !! "band" = Some (XText (Some "B4"))
    /\ d !! "date" = Some (XText (Some "1982-09-06")).
Proof.
  destruct (quick_xml_to_dict_children "product" (Some "ignored")
              [Elem "band" (Some "B3") []; Elem "date" (Some "1982-09-06") [];
               Elem "band" (Some "B4") []] ltac:(discriminate))
    as (d & Hrun & Hlast & _).
  exists d. split; [exact Hrun|]. split.
  - apply (Hlast [Elem "band" (Some "B3") []; Elem "date" (Some "1982-09-06") []]
             (Elem "band" (Some "B4") []) []); [reflexivity|]. simpl. tauto.
  - apply (Hlast [Elem "band" (Some "B3") []] (Elem "date" (Some "1982-09-06") [])
             [Elem "band" (Some "B4") []]); [reflexivity|].
    simpl. intros c' [<- | []]. discriminate.
Defined.

(** X14. An element without children is paired with its text, and in
    every case the first component is the tag of the element. *)
Theorem quick_xml_to_dict_leaf (element : Element) (t : string)
    (text : option string) :
  (quick_xml_to_dict element).1 = tag element
  /\ quick_xml_to_dict (Elem t text []) = (t, XText text)
  /\ (forall d, (quick_xml_to_dict element).2 = XDict d -> d <> ∅).
Proof.
  split; [apply quick_xml_to_dict_tag|]. split; [reflexivity|].
  destruct element as [t0 text0 children]. intros d.
  change (quick_xml_to_dict (Elem t0 text0 children))
    with (t0, let d0 := dict_of_pairs (map quick_xml_to_dict children) in
              if bool_decide (d0 = ∅) then XText text0 else XDict d0).
  simpl. case_bool_decide as Hd; [discriminate|]. by intros [= <-].
Qed.

Lemma quick_xml_to_dict_leaf_witness :
  quick_xml_to_dict (Elem "date" (Some "1982-09-06") [])
  = ("date", XText (Some "1982-09-06"))
  /\ exists d : gmap string XmlValue,
       (quick_xml_to_dict metadata_xml).2 = XDict d /\ d <> ∅.
Proof.
  destruct (quick_xml_to_dict_leaf metadata_xml "date" (Some "1982-09-06"))
    as (_ & Hleaf & Hdict).
  split; [exact Hleaf|].
  eexists. split; [reflexivity|]. apply Hdict. reflexivity.
Defined.

(** ** [use_dask] and [get_data_dir] *)

Lemma ascii_lower_idempotent (c : ascii) :
  ascii_lower (ascii_lower c) = ascii_lower c.
Proof. destruct c as [[] [] [] [] [] [] [] []]; reflexivity. Qed.

Lemma lower_idempotent (s : string) : lower (lower s) = lower s.
Proof.
  induction s as [|c s IH]; simpl; [done|].
  by rewrite ascii_lower_idempotent, IH.
Qed.

Section RuntimeProperties.
Context `{Runtime}.

(** X15. Dask is never used unless both [dask] and [distributed] can be
    imported, whatever the environment says; and it is used by default: with
    the variable unset, [use_dask] is true exactly when both can be
    imported. *)
Theorem use_dask_needs_both_modules (environ : gmap string string) :
  (use_dask environ = true ->
     can_import "dask" = true /\ can_import "distributed" = true)
  /\ (environ !! USE_DASK = None ->
     use_dask environ = can_import "dask" && can_import "distributed").
Proof.
  unfold use_dask. split.
  - destruct (bool_decide _); [|discriminate].
    destruct (can_import "dask"), (can_import "distributed"); simpl; auto;
      discriminate.
  - intros ->.
    change (lower (default "1" None)) with "1".
    rewrite bool_decide_eq_true_2 by (apply list_elem_of_In; simpl; tauto).
    by destruct (can_import "dask" && can_import "distributed").
Qed.

(** X16. The value of the variable is read without regard to case:
    a value and its lower-case form switch Dask the same way. *)
Theorem use_dask_ignores_case (environ : gmap string string) (v : string) :
  use_dask (<[USE_DASK := v]> environ)
  = use_dask (<[USE_DASK := lower v]> environ).
Proof.
  unfold use_dask. rewrite !lookup_insert_eq. simpl.
  by rewrite lower_idempotent.
Qed.

(** The loop of [get_data_dir] stops at a directory of the list that
    lists at least one entry. *)
Lemma first_non_empty_found (data_dirs : list PathLike) (ddir : PathLike) :
  first_non_empty data_dirs = inr (Some ddir) ->
  In ddir data_dirs /\ exists e es, listdir ddir = inr (e :: es).
Proof.
  induction data_dirs as [|d rest IH]; simpl; [discriminate|].
  destruct (listdir d) as [ex | entries] eqn:Hl; [discriminate|].
  destruct entries as [|e es]; simpl.
  - intros Hrest. destruct (IH Hrest) as [Hin Hlist]. auto.
  - intros [= <-]. split; [by left | eauto].
Qed.

Lemma first_non_empty_none (data_dirs : list PathLike) :
  (forall d, In d data_dirs -> listdir d = inr []) ->
  first_non_empty data_dirs = inr None.
Proof.
  induction data_dirs as [|d rest IH]; simpl; intros Hall; [done|].
  rewrite (Hall d) by (by left). simpl. apply IH. intros d' Hd'.
  apply Hall. by right.
Qed.

(** X17. A directory returned by [get_data_dir] lists at least one
    entry, and it is the [data] directory beside [utils.py] or one of the
    directories the search found. *)
Theorem get_data_dir_not_empty (data_dir : PathLike) :
  get_data_dir = inr data_dir ->
  (exists e es, listdir data_dir = inr (e :: es))
  /\ (data_dir = path_joinpath get_src_dir "data"
      \/ exists root, In data_dir (glob root "**/eoreader/data")).
Proof.
  unfold get_data_dir.
  set (packaged := path_joinpath get_src_dir "data").
  set (data_dirs := if String.eqb platform_system "Linux" then _ else _).
  assert (Helse : match first_non_empty data_dirs with
                  | inl ex => inl ex
                  | inr (Some ddir) => inr ddir
                  | inr None =>
                      inl (FileNotFoundError "Impossible to find the data directory.")
                  end = inr data_dir ->
                  (exists e es, listdir data_dir = inr (e :: es))
                  /\ (data_dir = packaged
                      \/ exists root, In data_dir (glob root "**/eoreader/data"))).
  { destruct (first_non_empty data_dirs) as [ex | [ddir|]] eqn:Hf; try discriminate.
    intros [= ->]. destruct (first_non_empty_found _ _ Hf) as [Hin Hlist].
    split; [exact Hlist|]. right. unfold data_dirs in Hin.
    destruct (String.eqb platform_system "Linux"); eauto. }
  destruct (is_dir packaged); simpl; [|exact Helse].
  destruct (listdir packaged) as [ex | [|e es]] eqn:Hl; [discriminate | exact Helse |].
  intros [= <-]. split; [eauto | by left].
Qed.

(** X18. When the [data] directory beside [utils.py] is missing or
    empty and every directory the search finds is empty, [get_data_dir]
    raises a [FileNotFoundError]. *)
Theorem get_data_dir_not_found :
  (is_dir (path_joinpath get_src_dir "data") = false
   \/ listdir (path_joinpath get_src_dir "data") = inr []) ->
  (forall root d, In d (glob root "**/eoreader/data") -> listdir d = inr []) ->
  get_data_dir = inl (FileNotFoundError "Impossible to find the data directory.").
Proof.
  intros Hpack Hall. unfold get_data_dir.
  set (data_dirs := if String.eqb platform_system "Linux" then _ else _).
  assert (Hnone : first_non_empty data_dirs = inr None).
  { apply first_non_empty_none. unfold data_dirs. intros d.
    destruct (String.eqb platform_system "Linux"); apply Hall. }
  rewrite Hnone.
  destruct (is_dir (path_joinpath get_src_dir "data")) eqn:Hd; simpl; [|done].
  destruct Hpack as [Hp | Hp]; [discriminate|]. by rewrite Hp.
Qed.

End RuntimeProperties.

Lemma use_dask_needs_both_modules_witness :
  @use_dask runtime ∅ = true
  /\ @use_dask runtime_without_distributed ∅ = false
  /\ @can_import runtime "dask" = true /\ @can_import runtime "distributed" = true.
Proof.
  destruct (@use_dask_needs_both_modules runtime ∅) as [Hon _].
  destruct (@use_dask_needs_both_modules runtime_without_distributed ∅)
    as [_ Hdefault].
  split; [reflexivity|]. split; [exact (Hdefault eq_refl)|].
  exact (Hon eq_refl).
Defined.

Lemma get_data_dir_not_empty_witness :
  @get_data_dir runtime = inr (PathObj "/usr/local/lib/python3/eoreader/data")
  /\ exists e es,
       @listdir runtime (PathObj "/usr/local/lib/python3/eoreader/data")
       = inr (e :: es).
Proof.
  split; [reflexivity|].
  destruct (@get_data_dir_not_empty runtime
              (PathObj "/usr/local/lib/python3/eoreader/data") eq_refl)
    as [Hlist _].
  exact Hlist.
Defined.

Lemma get_data_dir_not_found_witness :
  @get_data_dir runtime_without_distributed
  = inl (FileNotFoundError "Impossible to find the data directory.").
Proof.
  apply (@get_data_dir_not_found runtime_without_distributed).
  - left. reflexivity.
  - intros root d _. reflexivity.
Defined.

(** ** More on [L3Product] *)

Lemma map_bands_twice (m : gmap BandName string) :
  map_bands L3_MSS_BANDS (map_bands L3_MSS_BANDS m) = map_bands L3_MSS_BANDS m.
Proof.
  apply map_eq. intros b. unfold map_bands, L3_MSS_BANDS. simpl.
  destruct b; by simplify_map_eq.
Qed.

Section L3More.
Context `{LandsatProduct}.

(** X19. [get_product_type] is what makes [condensed_name] usable.  After
    a call that succeeds, [condensed_name] returns the date, [_L3_], the tile
    name, [_] and the value of [L1_MSS].  After a call that fails on a
    product whose type was not set, [condensed_name] raises an
    [AttributeError]. *)
Theorem condensed_name_after_get_product_type (self : L3Product) :
  (contains "L1" (name self) = true ->
     condensed_name (get_product_type self).2
     = inr (datetime (get_product_type self).2 +:+ "_L3_"
            +:+ tile_name (get_product_type self).2 +:+ "_"
            +:+ product_type_value L1_MSS))
  /\ (contains "L1" (name self) = false -> product_type self = None ->
     exists msg : string,
       condensed_name (get_product_type self).2 = inl (AttributeError msg)).
Proof.
  unfold get_product_type. split.
  - intros ->. reflexivity.
  - intros -> Hnone. simpl. unfold condensed_name. rewrite Hnone. eauto.
Qed.

End L3More.

Lemma condensed_name_after_get_product_type_witness :
  @condensed_name landsat
    (get_product_type {| name := l3_name; product_type := None; band_names := ∅ |}).2
  = inr "19820906T000000_L3_033028_MSS"
  /\ exists msg : string,
       @condensed_name landsat
         (get_product_type
            {| name := "LM03_RAW"; product_type := None; band_names := ∅ |}).2
       = inl (AttributeError msg).
Proof.
  split.
  - destruct (@condensed_name_after_get_product_type landsat
                {| name := l3_name; product_type := None; band_names := ∅ |})
      as [Hyes _].
    rewrite (Hyes eq_refl). reflexivity.
  - destruct (@condensed_name_after_get_product_type landsat
                {| name := "LM03_RAW"; product_type := None; band_names := ∅ |})
      as [_ Hno].
    exact (Hno eq_refl eq_refl).
Defined.

(** X20. Classifying twice is classifying once: a second call of
    [get_product_type] has the outcome of the first and leaves the product as
    the first left it. *)
Theorem get_product_type_idempotent (self : L3Product) :
  get_product_type (get_product_type self).2
  = ((get_product_type self).1, (get_product_type self).2).
Proof.
  unfold get_product_type.
  destruct (contains "L1" (name self)) eqn:Hn; cbn -[map_bands]; rewrite Hn;
    [|done].
  by rewrite map_bands_twice.
Qed.

(** X21. The test is on [L1] standing anywhere in the name: whatever is
    written before and after it, and whatever type the product had, the call
    succeeds and the type becomes [L1_MSS]. *)
Theorem get_product_type_accepts_L1_anywhere (before after : string)
    (pt : option LandsatProductType) (table : gmap BandName string) :
  (get_product_type
     {| name := before +:+ ("L1" +:+ after); product_type := pt;
        band_names := table |}).1 = None
  /\ product_type
       (get_product_type
          {| name := before +:+ ("L1" +:+ after); product_type := pt;
             band_names := table |}).2 = Some L1_MSS.
Proof.
  unfold get_product_type. simpl name. by rewrite contains_infix.
Qed.

(** ** More on [set_dem] and [_test_core] *)

Lemma substring_all (s : string) : substring 0 (String.length s) s = s.
Proof. induction s as [|c s IH]; simpl; [done | by rewrite IH]. Qed.

Lemma substring_prefix (a b : string) :
  substring 0 (String.length a) (a +:+ b) = a.
Proof.
  induction a as [|c a IH]; simpl; [by destruct b | by rewrite IH].
Qed.

Lemma substring_suffix (a b : string) :
  substring (String.length a) (String.length b) (a +:+ b) = b.
Proof.
  induction a as [|c a IH]; simpl; [apply substring_all | exact IH].
Qed.

Lemma length_append (a b : string) :
  String.length (a +:+ b) = (String.length a + String.length b)%nat.
Proof. induction a as [|c a IH]; simpl; [done | by rewrite IH]. Qed.

Lemma endswith_append (a b : string) : endswith (a +:+ b) b = true.
Proof.
  unfold endswith. rewrite length_append.
  replace (String.length a + String.length b - String.length b)%nat
    with (String.length a) by lia.
  rewrite substring_suffix, String.eqb_refl.
  rewrite andb_true_r. apply Nat.leb_le. lia.
Qed.

Section ScriptMore.
Context `{Harness}.

(** X22. [set_dem] writes [DEM_PATH] and nothing else: every other
    variable of [os.environ] is after the call what it was before, whether
    the call returned or raised. *)
Theorem set_dem_only_sets_dem_path (env : gmap string string)
    (dem_path : option string) (key : string) :
  key <> DEM_PATH ->
  (set_dem dem_path env).2 !! key = env !! key.
Proof.
  intros Hk. unfold set_dem.
  destruct (dem_path_given dem_path).
  - destruct (is_file _); simpl; [|done]. by rewrite lookup_insert_ne.
  - unfold mbind, M_bind, bind, environ_get, environ_has, except_NotADirectoryError,
      lift, environ_set, raise. simpl.
    destruct (not_using_s3_db _).
    + destruct get_db_dir as [[] | d]; simpl; try done.
      by rewrite lookup_insert_ne.
    + destruct (bool_decide _); simpl; [|done]. by rewrite lookup_insert_ne.
Qed.

(** X23. A call of [set_dem] that raises leaves [os.environ] as it was. *)
Theorem set_dem_failure_changes_nothing (env : gmap string string)
    (dem_path : option string) (ex : Exception) :
  (set_dem dem_path env).1 = inl ex ->
  (set_dem dem_path env).2 = env.
Proof.
  unfold set_dem.
  destruct (dem_path_given dem_path).
  - destruct (is_file _); simpl; [discriminate | done].
  - unfold mbind, M_bind, bind, environ_get, environ_has, except_NotADirectoryError,
      lift, environ_set, raise. simpl.
    destruct (not_using_s3_db _).
    + destruct get_db_dir as [[] | d]; simpl; try done.
    + destruct (bool_decide _); simpl; [discriminate | done].
Qed.

(** X24. With no path (or an empty one) and the S3 flag not set, the DEM
    is looked for in the reference store.  If the store is there, the MERIT
    DEM under it is registered.  If looking for the store raises a
    [NotADirectoryError], the error is swallowed: the call returns with
    [os.environ] as it was and no DEM registered.  Any other exception is
    raised. *)
Theorem set_dem_default_store (env : gmap string string) (dem_path : option string) :
  dem_path_given dem_path = false ->
  not_using_s3_db (env !! TEST_USING_S3_DB) = true ->
  (forall db_dir, get_db_dir = inr db_dir ->
     set_dem dem_path env
     = (inr tt, <[DEM_PATH := str (joinpath db_dir MERIT_DEM_SUB_DIR_PATH)]> env))
  /\ (forall msg, get_db_dir = inl (NotADirectoryError msg) ->
     set_dem dem_path env = (inr tt, env))
  /\ (forall ex, get_db_dir = inl ex ->
     (forall msg, ex <> NotADirectoryError msg) ->
     set_dem dem_path env = (inl ex, env)).
Proof.
  intros Hg Hflag. unfold set_dem. rewrite Hg.
  unfold mbind, M_bind, bind, environ_get, except_NotADirectoryError, lift. simpl.
  rewrite Hflag. repeat split.
  - by intros db_dir ->.
  - by intros msg ->.
  - intros ex -> Hex. destruct ex; try done. by destruct (Hex msg).
Qed.

(** X25. The first band of the stack is the first possible band the
    product has, and the bands of the stack are possible bands the product
    has, in the order of the possible bands; when the product has none of
    them, taking the first raises an [IndexError]. *)
Theorem first_band_is_first_supported (has_band : BandName -> bool)
    (possible_bands : list BandName) :
  (forall band, first_band has_band possible_bands = inr band ->
     exists before after,
       possible_bands = before ++ band :: after
       /\ has_band band = true
       /\ (forall b, In b before -> has_band b = false)
       /\ stack_bands_of has_band possible_bands
          = band :: stack_bands_of has_band after)
  /\ ((forall b, In b possible_bands -> has_band b = false) ->
      first_band has_band possible_bands
      = inl (OtherError "IndexError" "list index out of range")).
Proof.
  unfold first_band, stack_bands_of. split.
  - induction possible_bands as [|b rest IH]; simpl; [discriminate|].
    intros band. destruct (has_band b) eqn:Hb.
    + intros [= <-]. exists [], rest. simpl. repeat split; auto. tauto.
    + intros Hband.
      destruct (IH band Hband) as (before & after & Hrest & Hh & Hbefore & Hs).
      exists (b :: before), after. simpl. repeat split; auto.
      * by rewrite Hrest.
      * intros b' [<- | Hb']; auto.
  - intros Hnone.
    assert (Hf : List.filter has_band possible_bands = []).
    { induction possible_bands as [|b rest IH]; simpl; [done|].
      rewrite (Hnone b) by (by left). apply IH. intros b' Hb'. apply Hnone.
      by right. }
    by rewrite Hf.
Qed.

(** X26. The workaround of [_test_core] cuts one trailing [/] off: a path
    that reads [t/] becomes the path of [t]. *)
Theorem without_trailing_slash_cuts_one (path : PathLike) (t : string) :
  str path = t +:+ "/" ->
  without_trailing_slash path = AnyPath t.
Proof.
  intros Hs. unfold without_trailing_slash. rewrite Hs.
  rewrite endswith_append, length_append. simpl.
  replace (String.length t + 1 - 1)%nat with (String.length t) by lia.
  by rewrite substring_prefix.
Qed.

End ScriptMore.

Lemma set_dem_only_sets_dem_path_witness :
  "TEST_USING_S3_DB" <> @DEM_PATH harness
  /\ (@set_dem harness (Some "/data/dem.tif") {[ "TEST_USING_S3_DB" := "0" ]}).2
     !! "TEST_USING_S3_DB" = Some "0".
Proof.
  assert (Hk : "TEST_USING_S3_DB" <> @DEM_PATH harness) by discriminate.
  split; [exact Hk|].
  rewrite (@set_dem_only_sets_dem_path harness {[ "TEST_USING_S3_DB" := "0" ]}
             (Some "/data/dem.tif") "TEST_USING_S3_DB" Hk).
  reflexivity.
Defined.

Lemma set_dem_failure_changes_nothing_witness :
  (@set_dem harness (Some "/data/none.tif") {[ "TEST_USING_S3_DB" := "0" ]}).1
  = inl (FileNotFoundError "Not existing DEM: /data/none.tif")
  /\ (@set_dem harness (Some "/data/none.tif") {[ "TEST_USING_S3_DB" := "0" ]}).2
     = {[ "TEST_USING_S3_DB" := "0" ]}.
Proof.
  assert (Hex : (@set_dem harness (Some "/data/none.tif")
                   {[ "TEST_USING_S3_DB" := "0" ]}).1
                = inl (FileNotFoundError "Not existing DEM: /data/none.tif"))
    by reflexivity.
  split; [exact Hex|].
  exact (@set_dem_failure_changes_nothing harness _ _ _ Hex).
Defined.

Lemma set_dem_default_store_witness :
  @set_dem harness (Some "") ∅
  = (inr tt,
     {[ "EOREADER_DEM_PATH" :=
          "/mnt/db/GLOBAL/MERIT_Hydrologically_Adjusted_Elevations/MERIT_DEM.vrt" ]})
  /\ @set_dem harness_without_store None ∅ = (inr tt, ∅).
Proof.
  assert (Hflag : not_using_s3_db ((∅ : gmap string string) !! "TEST_USING_S3_DB")
                  = true) by reflexivity.
  split.
  - destruct (@set_dem_default_store harness ∅ (Some "") eq_refl Hflag)
      as [Hstore _].
    exact (Hstore (PathObj "/mnt/db") eq_refl).
  - destruct (@set_dem_default_store harness_without_store ∅ None eq_refl Hflag)
      as (_ & Hswallowed & _).
    exact (Hswallowed "Impossible to open database directory" eq_refl).
Defined.

Lemma first_band_is_first_supported_witness :
  first_band (fun b => bool_decide (b = SWIR_2 \/ b = CLOUDS)) OPTICAL_POSSIBLE_BANDS
  = inr SWIR_2
  /\ first_band (fun _ => false) SAR_POSSIBLE_BANDS
     = inl (OtherError "IndexError" "list index out of range")
  /\ exists before after,
       OPTICAL_POSSIBLE_BANDS = before ++ SWIR_2 :: after
       /\ stack_bands_of (fun b => bool_decide (b = SWIR_2 \/ b = CLOUDS))
            OPTICAL_POSSIBLE_BANDS
          = SWIR_2 :: stack_bands_of
                        (fun b => bool_decide (b = SWIR_2 \/ b = CLOUDS)) after.
Proof.
  split; [reflexivity|]. split.
  - destruct (first_band_is_first_supported (fun _ => false) SAR_POSSIBLE_BANDS)
      as [_ Hnone].
    apply Hnone. reflexivity.
  - destruct (first_band_is_first_supported
                (fun b => bool_decide (b = SWIR_2 \/ b = CLOUDS))
                OPTICAL_POSSIBLE_BANDS) as [Hfirst _].
    destruct (Hfirst SWIR_2 eq_refl) as (before & after & Hsplit & _ & _ & Hstack).
    exists before, after. split; [exact Hsplit | exact Hstack].
Defined.

Lemma without_trailing_slash_cuts_one_witness :
  @without_trailing_slash harness (PathObj "/data/S2A_MSIL1C.SAFE/")
  = PathObj "/data/S2A_MSIL1C.SAFE".
Proof.
  apply (@without_trailing_slash_cuts_one harness
           (PathObj "/data/S2A_MSIL1C.SAFE/") "/data/S2A_MSIL1C.SAFE").
  reflexivity.
Defined.
